(** * Nginx access-log analyzers: a shallow embedding and its properties

    The development follows [high_performance_analyzer.py]
    ([HighPerformanceNginxAnalyzer]), [nginx_log_analyzer.py]
    ([NginxLogAnalyzer]) and [simple_nginx_analyzer.py].

    Text.  A Python [str] is a [string]; a character outside ASCII is carried
    as its UTF-8 bytes.  The embedding is exact on ASCII text.  A byte above
    127 belongs to none of the classes [\d], [\w] and white space, and it is
    an ordinary character for the negated classes of the patterns.

    Integers.  A Python [int] is a [Z]; the counters never wrap.  The
    conversion [int(s)] is given twice, without ([int]) and with
    ([int_limited]) the limit the interpreter puts on the length of a
    numeral, and so is [process_line]; the two agree on every line whose
    status has at most 4300 digits.

    Ratios.  The success rate is kept as an exact rational in [Q]; the
    rounding of Python's binary floating point is not part of the model. *)

From Stdlib Require Import ZArith QArith Ascii String List Lia Bool.
From stdpp Require Import gmap strings pretty.

Local Open Scope Z_scope.

(** ** Characters and strings *)

Module Text.

Definition code (c : ascii) : N := N_of_ascii c.

(** [\d] on ASCII text. *)
Definition is_digit (c : ascii) : bool :=
  ((48 <=? code c) && (code c <=? 57))%N.

(** [\w] on ASCII text: letters, digits and the underscore. *)
Definition is_word (c : ascii) : bool :=
  (is_digit c
   || ((65 <=? code c) && (code c <=? 90))
   || ((97 <=? code c) && (code c <=? 122))
   || (code c =? 95))%N.

(** The characters removed by [str.strip()]: tab, line feed, vertical tab,
    form feed, carriage return, the four separators 0x1c-0x1f and space. *)
Definition is_space (c : ascii) : bool :=
  (((9 <=? code c) && (code c <=? 13))
   || ((28 <=? code c) && (code c <=? 31))
   || (code c =? 32))%N.

Definition is_empty (s : string) : bool :=
  match s with EmptyString => true | String _ _ => false end.

Fixpoint all (p : ascii -> bool) (s : string) : bool :=
  match s with
  | EmptyString => true
  | String c r => p c && all p r
  end.

(** The longest prefix whose characters satisfy [p], and what follows it:
    a greedy [p*]. *)
Fixpoint span (p : ascii -> bool) (s : string) : string * string :=
  match s with
  | EmptyString => (EmptyString, EmptyString)
  | String c r =>
      if p c then let '(a, b) := span p r in (String c a, b)
      else (EmptyString, s)
  end.

(** A greedy [p+]. *)
Definition span1 (p : ascii -> bool) (s : string) : option (string * string) :=
  let '(a, b) := span p s in
  if is_empty a then None else Some (a, b).

(** Exactly [n] characters satisfying [p]: [p{n}]. *)
Fixpoint exactly (n : nat) (p : ascii -> bool) (s : string)
  : option (string * string) :=
  match n with
  | O => Some (EmptyString, s)
  | S k =>
      match s with
      | EmptyString => None
      | String c r =>
          if p c then
            match exactly k p r with
            | Some (a, b) => Some (String c a, b)
            | None => None
            end
          else None
      end
  end.

(** A literal piece of a pattern. *)
Fixpoint lit (l s : string) : option string :=
  match l with
  | EmptyString => Some s
  | String c l' =>
      match s with
      | EmptyString => None
      | String d s' => if Ascii.eqb c d then lit l' s' else None
      end
  end.

(** [s.startswith(p)] *)
Definition startswith (s p : string) : bool := String.prefix p s.

Fixpoint lstrip (s : string) : string :=
  match s with
  | EmptyString => EmptyString
  | String c r => if is_space c then lstrip r else s
  end.

Fixpoint rstrip (s : string) : string :=
  match s with
  | EmptyString => EmptyString
  | String c r =>
      let r' := rstrip r in
      if is_empty r' && is_space c then EmptyString else String c r'
  end.

(** [s.strip()] *)
Definition strip (s : string) : string := rstrip (lstrip s).

Definition digit_val (c : ascii) : Z := Z.of_N (code c) - 48.

Fixpoint int_acc (acc : Z) (s : string) : option Z :=
  match s with
  | EmptyString => Some acc
  | String c r =>
      if is_digit c then int_acc (10 * acc + digit_val c) r else None
  end.

(** [int(s)] on the text of a [\d+] or [\d{n}] group, the only arguments
    the analyzers give it; [None] stands for [ValueError].  This is the
    conversion of an interpreter that puts no limit on the length of a
    numeral; [int_limited] below is the conversion under the default limit. *)
Definition int (s : string) : option Z :=
  if is_empty s then None else int_acc 0 s.

(** [sys.int_info.default_max_str_digits]: the number of digits above which
    [int] refuses a decimal numeral, unless the limit has been lifted.  Every
    digit counts, leading zeros too. *)
Definition int_max_str_digits : nat := 4300.

(** [int(s)] under that limit: a numeral of more digits raises
    [ValueError]. *)
Definition int_limited (s : string) : option Z :=
  if (int_max_str_digits <? String.length s)%nat then None else int s.

(** The format specifications [:02d] and [:04d]: decimal, padded on the
    left with zeros to the width (after the sign, if there is one). *)
Fixpoint zeros (n : nat) : string :=
  match n with O => EmptyString | S k => String "0" (zeros k) end.

Definition format_0d (width : nat) (n : Z) : string :=
  if n <? 0 then
    let d := pretty (Z.abs n) in
    String "-" (zeros (width - 1 - String.length d) +:+ d)
  else
    let d := pretty n in
    zeros (width - String.length d) +:+ d.

End Text.

Import Text.

(** The double quote, written by its code so that no literal has to hold one. *)
Definition dquote : ascii := "034"%char.
Definition not_dquote (c : ascii) : bool := negb (Ascii.eqb c dquote).
Definition not_rbracket (c : ascii) : bool := negb (Ascii.eqb c "]").
Definition is_sign (c : ascii) : bool := Ascii.eqb c "+" || Ascii.eqb c "-".

(** The eight groups of [log_pattern], under the names [process_line] and
    [parse_log_line] unpack them to. *)
Record log_groups := LogGroups {
  ip : string;
  timestamp_str : string;
  request : string;
  status_code : string;
  size : string;
  referer : string;
  user_agent : string;
  response_time : string
}.

(** [log_pattern.match].  The pattern is anchored at the start of the text
    only.  Its pieces, in order, with Q for the double quote:

      group 1   \d+ \. \d+ \. \d+ \. \d+        the address
      literal   space - space - space \[
      group 2   [^\]]+                           the timestamp
      literal   \] space Q
      group 3   [^Q]*                            the request
      literal   Q space
      group 4   \d+                              the status
      literal   space
      group 5   \d+ or -                         the size
      literal   space Q
      group 6   [^Q]*                            the referer
      literal   Q space Q
      group 7   [^Q]*                            the user agent
      literal   Q space Q
      group 8   [^Q]*                            the response time
      literal   Q

    Every repetition is followed by a literal character outside its class, so
    the greedy run is the only way the pattern can match and no backtracking
    is left to model; the two branches of group 5 start with different
    characters. *)
Definition log_pattern_match (s : string) : option log_groups :=
  '(a, s) ← span1 is_digit s;
  s ← lit "." s;
  '(b, s) ← span1 is_digit s;
  s ← lit "." s;
  '(c, s) ← span1 is_digit s;
  s ← lit "." s;
  '(d, s) ← span1 is_digit s;
  s ← lit " - - [" s;
  '(ts, s) ← span1 not_rbracket s;
  s ← lit ("] " +:+ String dquote "") s;
  let '(req, s) := span not_dquote s in
  s ← lit (String dquote " ") s;
  '(st, s) ← span1 is_digit s;
  s ← lit " " s;
  '(sz, s) ← match span1 is_digit s with
              | Some r => Some r
              | None => s' ← lit "-" s; Some ("-", s')
              end;
  s ← lit (" " +:+ String dquote "") s;
  let '(ref, s) := span not_dquote s in
  s ← lit (String dquote (" " +:+ String dquote "")) s;
  let '(ua, s) := span not_dquote s in
  s ← lit (String dquote (" " +:+ String dquote "")) s;
  let '(rt, s) := span not_dquote s in
  _ ← lit (String dquote "") s;
  Some (LogGroups (a +:+ "." +:+ b +:+ "." +:+ c +:+ "." +:+ d)
                  ts req st sz ref ua rt).

(** A line in the layout of the log, from its fields. *)
Definition log_line (ip ts req st sz ref ua rt : string) : string :=
  ip +:+ " - - [" +:+ ts +:+ "] " +:+ String dquote req
     +:+ String dquote (" " +:+ st +:+ " " +:+ sz +:+ " " +:+ String dquote ref
     +:+ String dquote (" " +:+ String dquote ua
     +:+ String dquote (" " +:+ String dquote rt +:+ String dquote ""))).

(** ** Reading a file

    The bytes of a file are a [string] too.  [decode_utf8_ignore] is
    [bytes.decode('utf-8', errors='ignore')] and the decoding of a file
    opened with [encoding='utf-8', errors='ignore']: the bytes of every
    well-formed UTF-8 sequence are kept and all other bytes are dropped. *)
Module IO.

Definition LF : ascii := "010"%char.
Definition CR : ascii := "013"%char.

Definition between (lo hi : N) (c : ascii) : bool :=
  ((lo <=? code c) && (code c <=? hi))%N.

Definition is_cont (c : ascii) : bool := between 128 191 c.

(** The number of continuation bytes after the lead byte [c], when [r]
    starts with a well-formed tail for it. *)
Definition tail_length (c : ascii) (r : string) : option nat :=
  match r with
  | String c2 r2 =>
      if between 194 223 c then
        if is_cont c2 then Some 1%nat else None
      else
        match r2 with
        | String c3 r3 =>
            let second3 :=
              if (code c =? 224)%N then between 160 191 c2
              else if (code c =? 237)%N then between 128 159 c2
              else between 225 239 c && is_cont c2 in
            if between 224 239 c then
              if second3 && is_cont c3 then Some 2%nat else None
            else
              match r3 with
              | String c4 _ =>
                  let second4 :=
                    if (code c =? 240)%N then between 144 191 c2
                    else if (code c =? 244)%N then between 128 143 c2
                    else between 241 243 c && is_cont c2 in
                  if between 240 244 c && second4 && is_cont c3 && is_cont c4
                  then Some 3%nat else None
              | EmptyString => None
              end
        | EmptyString => None
        end
  | EmptyString => None
  end.

(** [pending] counts the continuation bytes of a sequence already found
    well formed. *)
Fixpoint decode_go (pending : nat) (s : string) : string :=
  match s with
  | EmptyString => EmptyString
  | String c r =>
      match pending with
      | S k => String c (decode_go k r)
      | O =>
          if (code c <? 128)%N then String c (decode_go 0 r)
          else
            match tail_length c r with
            | Some n => String c (decode_go n r)
            | None => decode_go 0 r
            end
      end
  end.

Definition decode_utf8_ignore (bytes : string) : string := decode_go 0 bytes.

(** The newline translation of a file opened in text mode with the default
    [newline=None]: a carriage return, with the line feed after it if there
    is one, reads as one line feed. *)
Fixpoint universal_newlines (s : string) : string :=
  match s with
  | EmptyString => EmptyString
  | String c r =>
      if Ascii.eqb c CR then
        match r with
        | String d r' =>
            if Ascii.eqb d LF then String LF (universal_newlines r')
            else String LF (universal_newlines r)
        | EmptyString => String LF EmptyString
        end
      else String c (universal_newlines r)
  end.

(** The successive results of [readline]: each line with its line feed,
    the last one without if the text does not end in one. *)
Fixpoint readlines (s : string) : list string :=
  match s with
  | EmptyString => []
  | String c r =>
      if Ascii.eqb c LF then String c EmptyString :: readlines r
      else
        match readlines r with
        | [] => [String c EmptyString]
        | l :: ls => String c l :: ls
        end
  end.

(** [for line in file], for a file opened in text mode. *)
Definition text_lines (bytes : string) : list string :=
  readlines (universal_newlines (decode_utf8_ignore bytes)).

(** [iter(mmapped_file.readline, b'')]: the lines of the mapped bytes. *)
Definition mmap_lines (bytes : string) : list string := readlines bytes.

End IO.

(** ** The counters of a day

    One value of [daily_stats]: the dict with the keys [total] and
    [success] that the [defaultdict] creates, both zero, on first access. *)
Record day_stats := DayStats { total : Z; success : Z }.

(** [daily_stats[k]]: the entry, created when missing. *)
Definition stats_at (ds : gmap string day_stats) (k : string) : day_stats :=
  default (DayStats 0 0) (ds !! k).

(** [daily_stats[k]['total'] += 1] *)
Definition incr_total (ds : gmap string day_stats) (k : string)
  : gmap string day_stats :=
  let e := stats_at ds k in <[k := DayStats (total e + 1) (success e)]> ds.

(** [daily_stats[k]['success'] += 1] *)
Definition incr_success (ds : gmap string day_stats) (k : string)
  : gmap string day_stats :=
  let e := stats_at ds k in <[k := DayStats (total e) (success e + 1)]> ds.

(** [success / total * 100], as an exact ratio. *)
Definition percent (success total : Z) : Q :=
  (inject_Z success / inject_Z total * 100)%Q.

(** ** HighPerformanceNginxAnalyzer *)

Module HighPerformance.

(** The groups of [time_pattern]. *)
Record time_groups := TimeGroups {
  day : string;
  month_str : string;
  year : string;
  hour : string;
  minute : string;
  second : string;
  tz : string
}.

(** [time_pattern.match]: two digits, a slash, three word characters, a
    slash, four digits, then three times a colon and two digits, a space,
    and a sign followed by four digits (the pieces [\d{2}], [\w{3}],
    [\d{4}] and [[+-]\d{4}] of the pattern), anchored at the start of the
    text only. *)
Definition time_pattern_match (s : string) : option time_groups :=
  '(dd, s) ← exactly 2 is_digit s;
  s ← lit "/" s;
  '(mon, s) ← exactly 3 is_word s;
  s ← lit "/" s;
  '(yyyy, s) ← exactly 4 is_digit s;
  s ← lit ":" s;
  '(hh, s) ← exactly 2 is_digit s;
  s ← lit ":" s;
  '(mi, s) ← exactly 2 is_digit s;
  s ← lit ":" s;
  '(ss, s) ← exactly 2 is_digit s;
  s ← lit " " s;
  '(sg, s) ← exactly 1 is_sign s;
  '(zz, s) ← exactly 4 is_digit s;
  Some (TimeGroups dd mon yyyy hh mi ss (sg +:+ zz)).

Definition month_map : gmap string Z :=
  list_to_map
    [("Jan", 1); ("Feb", 2); ("Mar", 3); ("Apr", 4); ("May", 5); ("Jun", 6);
     ("Jul", 7); ("Aug", 8); ("Sep", 9); ("Oct", 10); ("Nov", 11); ("Dec", 12)].

(** [frozenset(range(200, 300))] *)
Definition success_codes : gset Z := list_to_set (seqZ 200 100).

(** [fast_parse_timestamp]: [None] is Python's [None].  The group [tz] is
    unpacked and never read. *)
Definition fast_parse_timestamp (timestamp_str : string) : option string :=
  match time_pattern_match timestamp_str with
  | None => None
  | Some g =>
      match month_map !! month_str g with
      | None => None
      | Some month =>
          if month =? 0 then None
          else
            match int (day g) with
            | None => None
            | Some d =>
                Some (year g +:+ "-" +:+ format_0d 2 month
                             +:+ "-" +:+ format_0d 2 d)
            end
      end
  end.

Record analyzer := Analyzer {
  https_domain1_count : Z;
  daily_stats : gmap string day_stats;
  total_lines_processed : Z;
  valid_lines_processed : Z
}.

(** [reset_stats] *)
Definition reset_stats : analyzer := Analyzer 0 ∅ 0 0.

(** The assignments to the attributes of [self]. *)
Definition count_line (self : analyzer) : analyzer :=
  Analyzer (https_domain1_count self) (daily_stats self)
           (total_lines_processed self + 1) (valid_lines_processed self).

Definition count_valid_line (self : analyzer) : analyzer :=
  Analyzer (https_domain1_count self) (daily_stats self)
           (total_lines_processed self) (valid_lines_processed self + 1).

Definition count_https_domain1 (self : analyzer) : analyzer :=
  Analyzer (https_domain1_count self + 1) (daily_stats self)
           (total_lines_processed self) (valid_lines_processed self).

Definition set_daily_stats (ds : gmap string day_stats) (self : analyzer)
  : analyzer :=
  Analyzer (https_domain1_count self) ds
           (total_lines_processed self) (valid_lines_processed self).

(** [process_line]: the new state of the analyzer and the returned flag.
    The [None] of [int] is the [ValueError] that the method catches. *)
Definition process_line (self : analyzer) (line : string) : analyzer * bool :=
  let self := count_line self in
  match log_pattern_match (strip line) with
  | None => (self, false)
  | Some g =>
      let self := count_valid_line self in
      let self :=
        if startswith (referer g) "https://domain1.com"
        then count_https_domain1 self else self in
      match fast_parse_timestamp (timestamp_str g) with
      | None => (self, true)
      | Some date_key =>
          if is_empty date_key then (self, true)
          else
            let self :=
              set_daily_stats (incr_total (daily_stats self) date_key) self in
            match int (status_code g) with
            | None => (self, false)
            | Some status =>
                if decide (status ∈ success_codes)
                then (set_daily_stats
                        (incr_success (daily_stats self) date_key) self, true)
                else (self, true)
            end
      end
  end.

(** [process_line] as an interpreter with the default limit on numerals
    runs it: the same statements, with [int_limited] for [int(status_code)].
    When the conversion raises, the line has been counted as valid, its
    referer has been looked at and the total of its day has grown; the
    handler returns [False]. *)
Definition process_line_limited (self : analyzer) (line : string)
  : analyzer * bool :=
  let self := count_line self in
  match log_pattern_match (strip line) with
  | None => (self, false)
  | Some g =>
      let self := count_valid_line self in
      let self :=
        if startswith (referer g) "https://domain1.com"
        then count_https_domain1 self else self in
      match fast_parse_timestamp (timestamp_str g) with
      | None => (self, true)
      | Some date_key =>
          if is_empty date_key then (self, true)
          else
            let self :=
              set_daily_stats (incr_total (daily_stats self) date_key) self in
            match int_limited (status_code g) with
            | None => (self, false)
            | Some status =>
                if decide (status ∈ success_codes)
                then (set_daily_stats
                        (incr_success (daily_stats self) date_key) self, true)
                else (self, true)
            end
      end
  end.

(** [_process_batch] *)
Definition _process_batch (self : analyzer) (lines : list string) : analyzer :=
  fold_left (fun a l => fst (process_line a l)) lines self.

(** The loop of [process_file_streaming] over the lines of the file; the
    state is the analyzer and [batch_lines]. *)
Definition streaming_step (batch_size : Z)
    (st : analyzer * list string) (line : string) : analyzer * list string :=
  let '(self, batch_lines) := st in
  let batch_lines := batch_lines ++ [line] in
  if Z.of_nat (length batch_lines) >=? batch_size
  then (_process_batch self batch_lines, [])
  else (self, batch_lines).

(** [process_file_streaming] on a file that exists, with its bytes; the
    progress display reads the counters and the clock and is left out. *)
Definition process_file_streaming (self : analyzer) (bytes : string)
    (batch_size : Z) : analyzer :=
  let '(self, batch_lines) :=
    fold_left (streaming_step batch_size) (IO.text_lines bytes) (self, []) in
  match batch_lines with
  | [] => self
  | _ :: _ => _process_batch self batch_lines
  end.

(** [process_file_mmap] on a file that exists: an empty file cannot be
    mapped, the [ValueError] is caught and the method returns. *)
Definition process_file_mmap (self : analyzer) (bytes : string) : analyzer :=
  if is_empty bytes then self
  else
    fold_left
      (fun self line_bytes =>
         fst (process_line self (IO.decode_utf8_ignore line_bytes)))
      (IO.mmap_lines bytes) self.

(** One value of [all_dates_stats]. *)
Record date_summary := DateSummary {
  sum_total : Z;
  sum_success : Z;
  sum_success_rate : Q
}.

(** [round(rate, 2)] on the exact ratio: to the nearest hundredth, ties to
    the even one. *)
Definition round2 (rate : Q) : Q :=
  let x := (rate * 100)%Q in
  let n := Qnum x in
  let d := Z.pos (Qden x) in
  let q := n / d in
  let r := n mod d in
  let up := (2 * r >? d) || ((2 * r =? d) && Z.odd q) in
  ((if up then q + 1 else q) # 100)%Q.

(** [get_results].  The dict [all_dates_stats] is filled in ascending order
    of the dates; as a finite map it keeps the entries and not that order. *)
Definition get_results (self : analyzer) (target_date : option string)
  : Z * Q * gmap string date_summary :=
  let success_rate :=
    match target_date with
    | None => 0%Q
    | Some d =>
        if is_empty d then 0%Q
        else
          match daily_stats self !! d with
          | Some stats =>
              if total stats >? 0 then percent (success stats) (total stats)
              else 0%Q
          | None => 0%Q
          end
    end in
  let all_dates_stats :=
    (fun stats =>
       let rate :=
         if total stats >? 0 then percent (success stats) (total stats)
         else 0%Q in
       DateSummary (total stats) (success stats) (round2 rate))
    <$> daily_stats self in
  (https_domain1_count self, success_rate, all_dates_stats).

(** The figures of [print_results].  [sum(... for stats in all_stats.values())]
    adds the entries up from 0; the order of a sum of integers is immaterial. *)
Definition total_requests (all_stats : gmap string date_summary) : Z :=
  map_fold (fun _ stats acc => acc + sum_total stats) 0 all_stats.

Definition total_success (all_stats : gmap string date_summary) : Z :=
  map_fold (fun _ stats acc => acc + sum_success stats) 0 all_stats.

Definition overall_rate (all_stats : gmap string date_summary) : Q :=
  if total_requests all_stats >? 0
  then percent (total_success all_stats) (total_requests all_stats)
  else 0%Q.

(** [validity_rate] and [https_percentage] are computed, and printed, only
    under their guards. *)
Definition validity_rate (self : analyzer) : option Q :=
  if total_lines_processed self >? 0
  then Some (percent (valid_lines_processed self) (total_lines_processed self))
  else None.

Definition https_percentage (self : analyzer) : option Q :=
  if valid_lines_processed self >? 0
  then Some (percent (https_domain1_count self) (valid_lines_processed self))
  else None.

End HighPerformance.

(** ** The library's dates

    [datetime.strptime] with the format [%d/%b/%Y:%H:%M:%S %z] and
    [datetime.utctimetuple], as far as [NginxLogAnalyzer] and the functions of
    [simple_nginx_analyzer.py] use them.  [strptime] is modelled on the layout
    the log is written in: two-digit day, hour, minute and second, a month
    abbreviation in any letter case, a four-digit year, one space, and a zone
    written as a sign and four digits.  The other spellings the library also
    reads (one-digit fields, a colon or seconds in the zone, the letter Z,
    several spaces) are outside the model and read as a failure. *)
Module Datetime.

(** An aware [datetime]; [utcoffset] is in seconds, positive east of UTC. *)
Record datetime := DateTime {
  year : Z;
  month : Z;
  day : Z;
  hour : Z;
  minute : Z;
  second : Z;
  utcoffset : Z
}.

Definition is_leap (y : Z) : bool :=
  (y mod 4 =? 0) && (negb (y mod 100 =? 0) || (y mod 400 =? 0)).

Definition days_in_month (y m : Z) : Z :=
  if m =? 2 then (if is_leap y then 29 else 28)
  else if (m =? 4) || (m =? 6) || (m =? 9) || (m =? 11) then 30
  else 31.

Definition days_before_year (y : Z) : Z :=
  let y := y - 1 in y * 365 + y / 4 - y / 100 + y / 400.

Definition days_before_month (y m : Z) : Z :=
  fold_left (fun acc k => acc + days_in_month y k) (seqZ 1 (m - 1)) 0.

(** The ordinal of a date: 1 for the first of January of year 1. *)
Definition ymd2ord (y m d : Z) : Z :=
  days_before_year y + days_before_month y m + d.

(** The date of an ordinal. *)
Definition ord2ymd (n : Z) : Z * Z * Z :=
  let n := n - 1 in
  let n400 := n / 146097 in
  let n := n mod 146097 in
  let n100 := n / 36524 in
  let n := n mod 36524 in
  let n4 := n / 1461 in
  let n := n mod 1461 in
  let n1 := n / 365 in
  let n := n mod 365 in
  let y := n400 * 400 + 1 + n100 * 100 + n4 * 4 + n1 in
  if (n1 =? 4) || (n100 =? 4) then (y - 1, 12, 31)
  else
    let '(m, n) :=
      fold_left
        (fun '(m, n) k =>
           if (m =? k) && (days_in_month y k <=? n)
           then (k + 1, n - days_in_month y k) else (m, n))
        (seqZ 1 11) (1, n) in
    (y, m, n + 1).

Definition lower (c : ascii) : ascii :=
  if ((65 <=? code c) && (code c <=? 90))%N
  then ascii_of_N (code c + 32) else c.

Fixpoint lowercase (s : string) : string :=
  match s with
  | EmptyString => EmptyString
  | String c r => String (lower c) (lowercase r)
  end.

(** The month abbreviations of the C locale, compared without case. *)
Definition month_abbr : list (string * Z) :=
  [("jan", 1); ("feb", 2); ("mar", 3); ("apr", 4); ("may", 5); ("jun", 6);
   ("jul", 7); ("aug", 8); ("sep", 9); ("oct", 10); ("nov", 11); ("dec", 12)].

Definition month_of (s : string) : option Z :=
  snd <$> List.find (fun e => String.eqb (fst e) (lowercase s)) month_abbr.

Definition any_char (c : ascii) : bool := true.

(** [datetime.strptime(s, '%d/%b/%Y:%H:%M:%S %z')]; [None] stands for
    [ValueError]. *)
Definition strptime (s : string) : option datetime :=
  '(dd, s) ← exactly 2 is_digit s;
  s ← lit "/" s;
  '(mon, s) ← exactly 3 any_char s;
  s ← lit "/" s;
  '(yyyy, s) ← exactly 4 is_digit s;
  s ← lit ":" s;
  '(hh, s) ← exactly 2 is_digit s;
  s ← lit ":" s;
  '(mi, s) ← exactly 2 is_digit s;
  s ← lit ":" s;
  '(ss, s) ← exactly 2 is_digit s;
  s ← lit " " s;
  '(sg, s) ← exactly 1 is_sign s;
  '(zh, s) ← exactly 2 is_digit s;
  '(zm, s) ← exactly 2 is_digit s;
  d ← int dd; m ← month_of mon; y ← int yyyy;
  h ← int hh; mn ← int mi; sc ← int ss; oh ← int zh; om ← int zm;
  let off := (if String.eqb sg "-" then -1 else 1) * (oh * 3600 + om * 60) in
  if is_empty s
     && (1 <=? y) && (1 <=? d) && (d <=? days_in_month y m)
     && (h <=? 23) && (mn <=? 59) && (sc <=? 59)
     && (om <=? 59) && (Z.abs off <? 86400)
  then Some (DateTime y m d h mn sc off)
  else None.

(** The year, month and day of [utctimetuple()]: the offset is taken off
    the local time; [None] stands for the [OverflowError] of a date that
    leaves the years 1 to 9999. *)
Definition utc_date (t : datetime) : option (Z * Z * Z) :=
  let local :=
    ymd2ord (year t) (month t) (day t) * 86400
    + hour t * 3600 + minute t * 60 + second t in
  let ord := (local - utcoffset t) / 86400 in
  if (1 <=? ord) && (ord <=? ymd2ord 9999 12 31)
  then Some (ord2ymd ord) else None.

End Datetime.

(** [float(s)] for a plain decimal numeral: an optional sign, digits, and
    possibly a point and more digits, with at least one digit in all.  The
    value is kept exact.  Exponents, [inf], [nan], surrounding white space and
    underscores, which the library also reads, are outside the model and read
    as a failure.  [None] stands for [ValueError]. *)
Module PyFloat.

Fixpoint frac_acc (num den : Z) (s : string) : option (Z * Z) :=
  match s with
  | EmptyString => Some (num, den)
  | String c r =>
      if is_digit c then frac_acc (10 * num + digit_val c) (10 * den) r
      else None
  end.

Definition unsigned (s : string) : option Q :=
  let '(ip, r) := span is_digit s in
  i ← int_acc 0 ip;
  match r with
  | EmptyString => if is_empty ip then None else Some (inject_Z i)
  | String c fp =>
      if Ascii.eqb c "." then
        if is_empty ip && is_empty fp then None
        else
          '(n, d) ← frac_acc i 1 fp;
          Some (Qmake n (Z.to_pos d))
      else None
  end.

Definition float (s : string) : option Q :=
  match s with
  | String c r =>
      if Ascii.eqb c "-" then Qopp <$> unsigned r
      else if Ascii.eqb c "+" then unsigned r
      else unsigned s
  | EmptyString => None
  end.

End PyFloat.

(** How a call ends: it returns a value, or an exception leaves it.  The
    only exception modelled is the [OverflowError] of [utctimetuple], which
    no [except (ValueError, IndexError)] catches. *)
Inductive outcome (A : Type) : Type :=
| Returned (a : A)
| Raised.

Arguments Returned {A} a.
Arguments Raised {A}.

(** ** NginxLogAnalyzer *)

Module NginxLog.

(** The dict returned by [parse_log_line]. *)
Record log_entry := LogEntry {
  ip : string;
  timestamp : Datetime.datetime;
  method : string;
  url : string;
  protocol : string;
  status_code : Z;
  size : Z;
  referer : string;
  user_agent : string;
  response_time : Q
}.

Definition not_blank (c : ascii) : bool := negb (Ascii.eqb c " ").

(** [request.split(' ', 2)] *)
Definition split_request (request : string) : list string :=
  let '(a, r) := span not_blank request in
  match r with
  | EmptyString => [a]
  | String _ r =>
      let '(b, r) := span not_blank r in
      match r with
      | EmptyString => [a; b]
      | String _ r => [a; b; r]
      end
  end.

(** [parse_log_line]: [None] is Python's [None], returned when the pattern
    does not match and when a conversion raises [ValueError]. *)
Definition parse_log_line (line : string) : option log_entry :=
  match log_pattern_match (strip line) with
  | None => None
  | Some (LogGroups ip timestamp_str request status_code size referer
                    user_agent response_time) =>
      match Datetime.strptime timestamp_str with
      | None => None
      | Some timestamp =>
          let request_parts := split_request request in
          let method := nth 0 request_parts "" in
          let url := nth 1 request_parts "" in
          let protocol := nth 2 request_parts "" in
          status ← int status_code;
          sz ← (if String.eqb size "-" then Some 0 else int size);
          rt ← (if String.eqb response_time "-" then Some 0%Q
                else PyFloat.float response_time);
          Some (LogEntry ip timestamp method url protocol status sz referer
                         user_agent rt)
      end
  end.

(** [is_https_domain1_request] *)
Definition is_https_domain1_request (log_entry : log_entry) : bool :=
  startswith (referer log_entry) "https://domain1.com".

(** [get_date_key]: the date of the timestamp in UTC, as text; [None]
    stands for the [OverflowError] of [utctimetuple]. *)
Definition get_date_key (timestamp : Datetime.datetime) : option string :=
  '(y, m, d) ← Datetime.utc_date timestamp;
  Some (format_0d 4 y +:+ "-" +:+ format_0d 2 m +:+ "-" +:+ format_0d 2 d).

(** [set(range(200, 300))] *)
Definition success_status_codes : gset Z := list_to_set (seqZ 200 100).

(** [is_success_status] *)
Definition is_success_status (status_code : Z) : bool :=
  bool_decide (status_code ∈ success_status_codes).

Record analyzer := Analyzer {
  https_domain1_count : Z;
  daily_stats : gmap string day_stats
}.


(** [get_https_domain1_count] *)
Definition get_https_domain1_count (self : analyzer) : Z :=
  https_domain1_count self.

(** The loop of [_process_batch]; [processed_count] is its local counter.
    The analyzer is changed in place, so what was counted before an
    exception stays counted. *)
Fixpoint process_batch_loop (self : analyzer) (processed_count : Z)
    (lines : list string) : analyzer * outcome Z :=
  match lines with
  | [] => (self, Returned processed_count)
  | line :: lines =>
      match parse_log_line line with
      | None => process_batch_loop self processed_count lines
      | Some log_entry =>
          let processed_count := processed_count + 1 in
          let self :=
            if is_https_domain1_request log_entry
            then Analyzer (https_domain1_count self + 1) (daily_stats self)
            else self in
          match get_date_key (timestamp log_entry) with
          | None => (self, Raised)
          | Some date_key =>
              let self :=
                Analyzer (https_domain1_count self)
                         (incr_total (daily_stats self) date_key) in
              let self :=
                if is_success_status (status_code log_entry)
                then Analyzer (https_domain1_count self)
                              (incr_success (daily_stats self) date_key)
                else self in
              process_batch_loop self processed_count lines
          end
      end
  end.

(** [_process_batch]: the state it leaves and the count it returns. *)
Definition _process_batch (self : analyzer) (lines : list string)
  : analyzer * outcome Z :=
  process_batch_loop self 0 lines.

(** The loop of [process_log_file] over the lines of the file.  The state
    is the analyzer, [batch_lines] and the two local counters [total_lines]
    and [processed_lines]; an exception of [_process_batch] ends the loop.
    After a batch has been handed over, the progress test computes
    [total_lines % (chunk_size * 10)], which raises [ZeroDivisionError] when
    the divisor is zero; what it prints otherwise is left out. *)
Fixpoint process_log_file_loop (chunk_size : Z) (self : analyzer)
    (batch_lines : list string) (total_lines processed_lines : Z)
    (lines : list string) : analyzer * outcome (Z * Z) :=
  match lines with
  | [] =>
      match batch_lines with
      | [] => (self, Returned (total_lines, processed_lines))
      | _ :: _ =>
          match _process_batch self batch_lines with
          | (self, Returned n) =>
              (self, Returned (total_lines, processed_lines + n))
          | (self, Raised) => (self, Raised)
          end
      end
  | line :: lines =>
      let total_lines := total_lines + 1 in
      let batch_lines := batch_lines ++ [line] in
      if Z.of_nat (length batch_lines) >=? chunk_size then
        match _process_batch self batch_lines with
        | (self, Returned n) =>
            if chunk_size * 10 =? 0 then (self, Raised)
            else
              process_log_file_loop chunk_size self [] total_lines
                                    (processed_lines + n) lines
        | (self, Raised) => (self, Raised)
        end
      else
        process_log_file_loop chunk_size self batch_lines total_lines
                              processed_lines lines
  end.

(** [process_log_file] on a file that exists: the state it leaves, and the
    two counts it prints when it completes; [Raised] is the path through
    [except Exception], which prints the error and returns.  The closing
    report, which reads the clock, is left out. *)
Definition process_log_file (self : analyzer) (bytes : string)
    (chunk_size : Z) : analyzer * outcome (Z * Z) :=
  process_log_file_loop chunk_size self [] 0 0 (IO.text_lines bytes).

End NginxLog.

(** ** simple_nginx_analyzer.py *)

Module Simple.

(** The loop of [analyze_nginx_logs]: the state is [https_domain1_count]
    and [daily_stats].  A [ValueError] of [strptime] skips the rest of the
    line, after the referer has been counted; an [OverflowError] leaves the
    loop. *)
Fixpoint analyze_loop (https_domain1_count : Z)
    (daily_stats : gmap string day_stats) (lines : list string)
  : outcome (Z * gmap string day_stats) :=
  match lines with
  | [] => Returned (https_domain1_count, daily_stats)
  | line :: lines =>
      match log_pattern_match (strip line) with
      | None => analyze_loop https_domain1_count daily_stats lines
      | Some g =>
          let https_domain1_count :=
            if startswith (referer g) "https://domain1.com"
            then https_domain1_count + 1 else https_domain1_count in
          match Datetime.strptime (timestamp_str g) with
          | None => analyze_loop https_domain1_count daily_stats lines
          | Some timestamp =>
              match NginxLog.get_date_key timestamp with
              | None => Raised
              | Some date_key =>
                  let daily_stats := incr_total daily_stats date_key in
                  match int (status_code g) with
                  | None => analyze_loop https_domain1_count daily_stats lines
                  | Some status =>
                      let daily_stats :=
                        if bool_decide (status ∈ NginxLog.success_status_codes)
                        then incr_success daily_stats date_key
                        else daily_stats in
                      analyze_loop https_domain1_count daily_stats lines
                  end
              end
          end
      end
  end.

(** [analyze_nginx_logs] on a file that exists: the pair it returns.  The
    [except Exception] around the loop returns [(0, 0.0)]. *)
Definition analyze_nginx_logs (bytes : string) (target_date : option string)
  : Z * Q :=
  match analyze_loop 0 ∅ (IO.text_lines bytes) with
  | Raised => (0, 0%Q)
  | Returned (https_domain1_count, daily_stats) =>
      let success_rate :=
        match target_date with
        | None => 0%Q
        | Some d =>
            if is_empty d then 0%Q
            else
              match daily_stats !! d with
              | Some stats =>
                  if total stats >? 0
                  then percent (success stats) (total stats)
                  else 0%Q
              | None => 0%Q
              end
        end in
      (https_domain1_count, success_rate)
  end.

End Simple.

(** * Vocabulary of the statements *)

Import HighPerformance.

(** The text of a [\d+] group. *)
Definition number (s : string) : Prop := all is_digit s = true /\ s <> "".

(** The text of a quoted group: no double quote inside. *)
Definition quoted (s : string) : Prop := all not_dquote s = true.

(** The text of the bracketed group. *)
Definition bracketed (s : string) : Prop :=
  all not_rbracket s = true /\ s <> "".

Definition dotted (a b c d : string) : string :=
  a +:+ "." +:+ b +:+ "." +:+ c +:+ "." +:+ d.


(** The text of a timestamp, from its fields; [rest] is whatever follows
    the zone (the pattern is not anchored at the end). *)
Definition timestamp_text (dd mon yyyy hh mi ss : string) (sg : ascii)
    (zz rest : string) : string :=
  dd +:+ "/" +:+ mon +:+ "/" +:+ yyyy +:+ ":" +:+ hh +:+ ":" +:+ mi +:+ ":"
     +:+ ss +:+ " " +:+ String sg (zz +:+ rest).

Definition digits (n : nat) (s : string) : Prop :=
  String.length s = n /\ all is_digit s = true.

(** The day's entry after one record with status [n]. *)
Definition counted (ds : gmap string day_stats) (k : string) (n : Z)
  : gmap string day_stats :=
  let ds := incr_total ds k in
  if decide (n ∈ success_codes) then incr_success ds k else ds.

(** What one record adds to the state. *)
Definition recorded (self : analyzer) (g : log_groups) (n : Z) : analyzer :=
  Analyzer
    (https_domain1_count self
     + (if startswith (referer g) "https://domain1.com" then 1 else 0))
    (match fast_parse_timestamp (timestamp_str g) with
     | Some k => counted (daily_stats self) k n
     | None => daily_stats self
     end)
    (total_lines_processed self + 1)
    (valid_lines_processed self + 1).


(** A fresh analyzer fed a list of lines. *)
Definition aggregate (lines : list string) : analyzer :=
  _process_batch reset_stats lines.

(** The merge of two analyzers: every counter is the sum of the two. *)
Definition merge_day (x y : day_stats) : day_stats :=
  DayStats (total x + total y) (success x + success y).

Definition merge (x y : analyzer) : analyzer :=
  Analyzer
    (https_domain1_count x + https_domain1_count y)
    (union_with (fun a b => Some (merge_day a b))
                (daily_stats x) (daily_stats y))
    (total_lines_processed x + total_lines_processed y)
    (valid_lines_processed x + valid_lines_processed y).

(** The UTC calendar day a timestamp denotes, once its offset is applied:
    the key [NginxLogAnalyzer] files the record under, [get_date_key] of
    the parsed timestamp. *)
Definition utc_day (timestamp_str : string) : option string :=
  t ← Datetime.strptime timestamp_str; NginxLog.get_date_key t.


(** Scenario A of the specification and its variants. *)
Definition scenario_A : string :=
  log_line "47.29.201.179" "28/Feb/2019:13:17:10 +0000" "GET / HTTP/1.1"
           "200" "100" "https://domain1.com/" "UA" "1.0".

Definition scenario_B : string :=
  log_line "47.29.201.179" "28/Feb/2019:13:17:10 +0000" "GET / HTTP/1.1"
           "500" "100" "https://domain1.com/" "UA" "1.0".

Definition groups_B : log_groups :=
  LogGroups "47.29.201.179" "28/Feb/2019:13:17:10 +0000" "GET / HTTP/1.1"
            "500" "100" "https://domain1.com/" "UA" "1.0".

(** A record whose month is not in [month_map]. *)
Definition bad_month_line : string :=
  log_line "47.29.201.179" "28/Foo/2019:13:17:10 +0000" "GET / HTTP/1.1"
           "200" "100" "https://domain1.com/" "UA" "1.0".

Definition bad_month_groups : log_groups :=
  LogGroups "47.29.201.179" "28/Foo/2019:13:17:10 +0000" "GET / HTTP/1.1"
            "200" "100" "https://domain1.com/" "UA" "1.0".

(** A record without a size, and the same record with a size of zero. *)
Definition no_size_line : string :=
  log_line "47.29.201.179" "28/Feb/2019:13:17:10 +0000" "GET / HTTP/1.1"
           "200" "-" "https://domain1.com/" "UA" "1.0".

Definition no_size_groups : log_groups :=
  LogGroups "47.29.201.179" "28/Feb/2019:13:17:10 +0000" "GET / HTTP/1.1"
            "200" "-" "https://domain1.com/" "UA" "1.0".

Definition no_size_entry : NginxLog.log_entry :=
  NginxLog.LogEntry "47.29.201.179" (Datetime.DateTime 2019 2 28 13 17 10 0)
                    "GET" "/" "HTTP/1.1" 200 0 "https://domain1.com/" "UA"
                    (10 # 10)%Q.

Definition zero_size_line : string :=
  log_line "47.29.201.179" "28/Feb/2019:13:17:10 +0000" "GET / HTTP/1.1"
           "200" "0" "https://domain1.com/" "UA" "1.0".

(** A file of two records, the first ended by a carriage return alone and
    the second by a line feed. *)
Definition cr_file : string :=
  scenario_A +:+ String IO.CR (scenario_B +:+ String IO.LF "").

(** What the two strategies are compared on: the secure-referer counter,
    the counters of the days and the number of valid lines. *)
Definition observed (a : analyzer) : Z * gmap string day_stats * Z :=
  (https_domain1_count a, daily_stats a, valid_lines_processed a).

Definition not_cr (c : ascii) : bool := negb (Ascii.eqb c IO.CR).
Definition not_lf (c : ascii) : bool := negb (Ascii.eqb c IO.LF).

(** The first [n] bytes of [s] are continuation bytes. *)
Fixpoint conts (n : nat) (s : string) : bool :=
  match n with
  | O => true
  | S k =>
      match s with
      | EmptyString => false
      | String c r => IO.is_cont c && conts k r
      end
  end.

Definition nonempty (s : string) : bool := negb (is_empty s).

(** A file without a carriage return. *)
Definition no_cr (bytes : string) : Prop := all not_cr bytes = true.

(** The invariant of [daily_stats]: an entry exists only for a day that has
    records, and its successes are among its records. *)
Definition well_counted (ds : gmap string day_stats) : Prop :=
  forall k e, ds !! k = Some e -> 0 < total e /\ 0 <= success e <= total e.

(** * Vocabulary of the further properties *)

(** The lines [process_line] counts as valid, those it counts for the secure
    referer, and those it files under a day. *)
Definition valid_line (line : string) : bool :=
  match log_pattern_match (strip line) with Some _ => true | None => false end.

Definition secure_line (line : string) : bool :=
  match log_pattern_match (strip line) with
  | Some g => startswith (referer g) "https://domain1.com"
  | None => false
  end.

Definition dated_line (line : string) : bool :=
  match log_pattern_match (strip line) with
  | Some g =>
      match fast_parse_timestamp (timestamp_str g) with
      | Some _ => true
      | None => false
      end
  | None => false
  end.

Definition count (p : string -> bool) (lines : list string) : Z :=
  Z.of_nat (length (List.filter p lines)).

(** The counters of an analyzer are in order: secure referers among valid
    lines, valid lines among the lines seen. *)
Definition counters_ordered (self : analyzer) : Prop :=
  0 <= https_domain1_count self <= valid_lines_processed self /\
  valid_lines_processed self <= total_lines_processed self.

(** The records of all days together. *)
Definition sum_totals (ds : gmap string day_stats) : Z :=
  map_fold (fun _ e acc => acc + total e) 0 ds.

Definition sum_successes (ds : gmap string day_stats) : Z :=
  map_fold (fun _ e acc => acc + success e) 0 ds.

(** The lines [NginxLogAnalyzer] accepts, and those among them it counts for
    the secure referer. *)
Definition accepted_line (line : string) : bool :=
  match NginxLog.parse_log_line line with Some _ => true | None => false end.

Definition accepted_secure_line (line : string) : bool :=
  match NginxLog.parse_log_line line with
  | Some e => NginxLog.is_https_domain1_request e
  | None => false
  end.

(** A line whose timestamp [strptime] reads and [utctimetuple] cannot bring
    to UTC within the years 1 to 9999. *)
Definition overflowing_line (line : string) : bool :=
  match log_pattern_match (strip line) with
  | Some g =>
      match Datetime.strptime (timestamp_str g) with
      | Some t =>
          match Datetime.utc_date t with Some _ => false | None => true end
      | None => false
      end
  | None => false
  end.

(** A record stamped in the first hour of year 1, one hour east of UTC. *)
Definition year_zero_line : string :=
  log_line "47.29.201.179" "01/Jan/0001:00:30:00 +0100" "GET / HTTP/1.1"
           "200" "100" "https://domain1.com/" "UA" "1.0".

(** [' '.join(parts)] *)
Fixpoint join_blank (parts : list string) : string :=
  match parts with
  | [] => ""
  | [p] => p
  | p :: ps => p +:+ String " " (join_blank ps)
  end.

(** The sum of a figure over all days. *)
Definition msum (w : day_stats -> Z) (ds : gmap string day_stats) : Z :=
  map_fold (fun _ e acc => acc + w e) 0 ds.

(** A count carried on from [pc]. *)
Definition shift (pc : Z) (o : outcome Z) : outcome Z :=
  match o with Returned n => Returned (pc + n) | Raised => Raised end.

(** A file that holds scenario A and then the record of year 1. *)
Definition year_zero_file : string :=
  scenario_A +:+ String IO.LF (year_zero_line +:+ String IO.LF "").

(** Text of ASCII characters only.  On such text the scanners of the model,
    which read the ASCII digits and word characters, and the patterns of the
    source, which also read the digits and letters of the other scripts,
    match the same. *)
Definition is_ascii (c : ascii) : bool := (code c <? 128)%N.

Definition ascii_text (s : string) : Prop := all is_ascii s = true.

(** A status of 4301 digits whose value is 200. *)
Definition long_status : string := zeros 4298 +:+ "200".

Definition long_status_line : string :=
  log_line "47.29.201.179" "28/Feb/2019:13:17:10 +0000" "GET / HTTP/1.1"
           long_status "100" "https://domain1.com/" "UA" "1.0".

(** A file of two records. *)
Definition two_record_file : string :=
  scenario_A +:+ String IO.LF (scenario_B +:+ String IO.LF "").

(** * Facts about the scanners *)

Section TextFacts.

Lemma app_cons (c : ascii) (a b : string) :
  String c a +:+ b = String c (a +:+ b).
Proof. reflexivity. Qed.

Lemma app_nil_l (b : string) : "" +:+ b = b.
Proof. reflexivity. Qed.

Lemma app_nil_r_s (a : string) : a +:+ "" = a.
Proof.
  induction a as [|c a IH]; [reflexivity|]. rewrite app_cons, IH. reflexivity.
Qed.

Lemma all_app (p : ascii -> bool) (a b : string) :
  all p (a +:+ b) = all p a && all p b.
Proof.
  induction a as [|c a IH]; [reflexivity|].
  rewrite app_cons. simpl. rewrite IH. apply andb_assoc.
Qed.



Lemma span_spec (p : ascii -> bool) (s a b : string) :
  span p s = (a, b) -> s = a +:+ b /\ all p a = true.
Proof.
  revert a b. induction s as [|c s IH]; intros a b H; simpl in H.
  - inversion H. split; reflexivity.
  - destruct (p c) eqn:Hc.
    + destruct (span p s) as [a' b'] eqn:Hs. inversion H; subst.
      destruct (IH a' b eq_refl) as [-> Ha].
      split; [reflexivity | simpl; rewrite Hc; exact Ha].
    + inversion H; subst. split; reflexivity.
Qed.

Lemma span1_spec (p : ascii -> bool) (s a b : string) :
  span1 p s = Some (a, b) -> s = a +:+ b /\ all p a = true /\ a <> "".
Proof.
  unfold span1. destruct (span p s) as [a' b'] eqn:Hs.
  destruct (span_spec _ _ _ _ Hs) as [-> Hall].
  destruct a' as [|c x]; simpl; [discriminate|].
  intros H. inversion H; subst. repeat split; auto.
Qed.

Lemma exactly_app (p : ascii -> bool) (a r : string) :
  all p a = true -> exactly (String.length a) p (a +:+ r) = Some (a, r).
Proof.
  induction a as [|c a IH]; intros Ha; [reflexivity|].
  simpl in Ha. apply andb_true_iff in Ha as [Hc Ha].
  rewrite app_cons. simpl. rewrite Hc, (IH Ha). reflexivity.
Qed.

Lemma exactly_spec (n : nat) (p : ascii -> bool) (s a b : string) :
  exactly n p s = Some (a, b) ->
  s = a +:+ b /\ all p a = true /\ String.length a = n.
Proof.
  revert s a b. induction n as [|n IH]; intros s a b H; simpl in H.
  - inversion H; subst. repeat split.
  - destruct s as [|c s]; [discriminate|].
    destruct (p c) eqn:Hc; [|discriminate].
    destruct (exactly n p s) as [[a' b']|] eqn:Hs; [|discriminate].
    inversion H; subst. destruct (IH _ _ _ Hs) as (-> & Ha & Hl).
    repeat split; simpl; [rewrite Hc; exact Ha | rewrite Hl; reflexivity].
Qed.

Lemma lit_app (l s : string) : lit l (l +:+ s) = Some s.
Proof.
  induction l as [|c l IH]; [reflexivity|].
  rewrite app_cons. simpl. rewrite Ascii.eqb_refl. exact IH.
Qed.

Lemma lit_spec (l s r : string) : lit l s = Some r -> s = l +:+ r.
Proof.
  revert s. induction l as [|c l IH]; intros s H; simpl in H.
  - inversion H. reflexivity.
  - destruct s as [|d s]; [discriminate|].
    destruct (Ascii.eqb c d) eqn:E; [|discriminate].
    apply Ascii.eqb_eq in E as ->. rewrite (IH _ H). reflexivity.
Qed.

Lemma is_digit_cases (c : ascii) :
  is_digit c = true ->
  In c ["0"; "1"; "2"; "3"; "4"; "5"; "6"; "7"; "8"; "9"]%char.
Proof.
  destruct c as [[] [] [] [] [] [] [] []]; vm_compute; intros H;
    first [discriminate H | tauto].
Qed.

Lemma digit_val_range (c : ascii) :
  is_digit c = true -> 0 <= digit_val c <= 9.
Proof.
  intros H. apply is_digit_cases in H. simpl in H.
  repeat (destruct H as [<-|H]; [vm_compute; split; discriminate|]).
  contradiction.
Qed.

Lemma int_acc_digits (s : string) (acc : Z) :
  all is_digit s = true -> 0 <= acc ->
  exists n, int_acc acc s = Some n /\ acc <= n.
Proof.
  revert acc. induction s as [|c s IH]; intros acc Hs Hacc; simpl.
  - exists acc. split; [reflexivity | lia].
  - simpl in Hs. apply andb_true_iff in Hs as [Hc Hs]. rewrite Hc.
    pose proof (digit_val_range c Hc) as Hr.
    destruct (IH (10 * acc + digit_val c) Hs ltac:(lia)) as (n & Hn & Hle).
    exists n. split; [exact Hn | lia].
Qed.

(** [int] never raises on the text of a [\d+] group. *)
Lemma int_digits (s : string) :
  all is_digit s = true -> s <> "" -> exists n, int s = Some n /\ 0 <= n.
Proof.
  intros Hs Hne. unfold int. destruct s as [|c s]; [congruence|].
  apply (int_acc_digits (String c s) 0 Hs). lia.
Qed.

Lemma format_02d_table :
  forallb
    (fun a =>
       forallb
         (fun b =>
            match int (String a (String b "")) with
            | Some n => String.eqb (format_0d 2 n) (String a (String b ""))
            | None => false
            end)
         ["0"; "1"; "2"; "3"; "4"; "5"; "6"; "7"; "8"; "9"]%char)
    ["0"; "1"; "2"; "3"; "4"; "5"; "6"; "7"; "8"; "9"]%char
  = true.
Proof. vm_compute. reflexivity. Qed.

(** Two digits printed back with [:02d] are the two digits. *)
Lemma format_02d_int (d : string) (n : Z) :
  String.length d = 2%nat -> all is_digit d = true ->
  int d = Some n -> format_0d 2 n = d.
Proof.
  intros Hl Hd Hn. destruct d as [|a [|b [|? ?]]]; try discriminate Hl.
  simpl in Hd. rewrite andb_true_r in Hd.
  apply andb_true_iff in Hd as [Ha Hb].
  apply is_digit_cases in Ha, Hb.
  pose proof format_02d_table as T.
  rewrite forallb_forall in T. specialize (T a Ha).
  rewrite forallb_forall in T. specialize (T b Hb).
  rewrite Hn in T. apply String.eqb_eq in T. exact T.
Qed.

End TextFacts.

Section ScanTactics.

Lemma exactly_app_n (n : nat) (p : ascii -> bool) (a r : string) :
  String.length a = n -> all p a = true ->
  exactly n p (a +:+ r) = Some (a, r).
Proof. intros <-. apply exactly_app. Qed.

Lemma exactly_one (p : ascii -> bool) (c : ascii) (r : string) :
  p c = true -> exactly 1 p (String c r) = Some (String c "", r).
Proof. intros H. simpl. rewrite H. reflexivity. Qed.


Lemma lit_cons (c : ascii) (l s : string) :
  lit (String c l) (String c s) = lit l s.
Proof. simpl. rewrite Ascii.eqb_refl. reflexivity. Qed.

Lemma lit_nil (s : string) : lit "" s = Some s.
Proof. reflexivity. Qed.


End ScanTactics.

#[local] Arguments lit : simpl never.
#[local] Arguments exactly : simpl never.
#[local] Arguments span : simpl never.
#[local] Arguments span1 : simpl never.

#[local] Ltac lit_step :=
  repeat first [rewrite app_cons | rewrite app_nil_l | rewrite lit_cons];
  rewrite ?lit_nil.

(** * The line pattern *)

Section LogPattern.

Lemma app_assoc_s (a b c : string) : (a +:+ b) +:+ c = a +:+ (b +:+ c).
Proof.
  induction a as [|x a IH]; [reflexivity|].
  rewrite !app_cons, IH. reflexivity.
Qed.

(** Soundness: a text that matches is a line in the layout, made of the
    groups, followed by anything. *)
Lemma log_pattern_match_sound (s : string) (g : log_groups) :
  log_pattern_match s = Some g ->
  exists a b c d rest,
    ip g = dotted a b c d /\
    (number a /\ number b /\ number c /\ number d) /\
    bracketed (timestamp_str g) /\ quoted (request g) /\
    number (status_code g) /\ (size g = "-" \/ number (size g)) /\
    quoted (referer g) /\ quoted (user_agent g) /\ quoted (response_time g) /\
    s = log_line (ip g) (timestamp_str g) (request g) (status_code g) (size g)
                 (referer g) (user_agent g) (response_time g) +:+ rest.
Proof.
  unfold log_pattern_match. intros H.
  repeat match type of H with
  | context [span1 ?p ?x] =>
      let E := fresh "E" in
      destruct (span1 p x) as [[? ?]|] eqn:E; simpl in H;
      [apply span1_spec in E; destruct E as (? & ? & ?)
      | try discriminate H]
  | context [lit ?l ?x] =>
      let E := fresh "E" in
      destruct (lit l x) eqn:E; simpl in H;
      [apply lit_spec in E | discriminate H]
  | context [span ?p ?x] =>
      let E := fresh "E" in
      destruct (span p x) as [? ?] eqn:E; simpl in H;
      apply span_spec in E; destruct E as (? & ?)
  end;
  inversion H; subst; clear H; simpl;
  do 5 eexists; unfold number, bracketed, quoted;
  (split; [reflexivity|]);
  repeat match goal with |- _ /\ _ => split end;
  try assumption; try (right; split; assumption); try (left; reflexivity);
  unfold log_line, dotted;
  repeat first [rewrite app_assoc_s | rewrite app_cons | rewrite app_nil_l];
  reflexivity.
Qed.

Lemma log_pattern_match_status (s : string) (g : log_groups) :
  log_pattern_match s = Some g -> number (status_code g).
Proof.
  intros H. apply log_pattern_match_sound in H.
  destruct H as (a & b & c & d & rest & H). tauto.
Qed.

Lemma log_pattern_match_size (s : string) (g : log_groups) :
  log_pattern_match s = Some g -> size g = "-" \/ number (size g).
Proof.
  intros H. apply log_pattern_match_sound in H.
  destruct H as (a & b & c & d & rest & H). tauto.
Qed.










End LogPattern.

Section Timestamps.

Lemma time_pattern_match_text dd mon yyyy hh mi ss sg zz rest :
  digits 2 dd -> String.length mon = 3%nat -> all is_word mon = true ->
  digits 4 yyyy -> digits 2 hh -> digits 2 mi -> digits 2 ss ->
  is_sign sg = true -> digits 4 zz ->
  time_pattern_match (timestamp_text dd mon yyyy hh mi ss sg zz rest)
  = Some (TimeGroups dd mon yyyy hh mi ss (String sg zz)).
Proof.
  intros [? ?] ? ? [? ?] [? ?] [? ?] [? ?] Hsg [? ?].
  unfold time_pattern_match, timestamp_text.
  rewrite exactly_app_n by assumption. simpl. lit_step. simpl.
  rewrite exactly_app_n by assumption. simpl. lit_step. simpl.
  rewrite exactly_app_n by assumption. simpl. lit_step. simpl.
  rewrite exactly_app_n by assumption. simpl. lit_step. simpl.
  rewrite exactly_app_n by assumption. simpl. lit_step. simpl.
  rewrite exactly_app_n by assumption. simpl. lit_step. simpl.
  rewrite exactly_one by assumption. simpl.
  rewrite exactly_app_n by assumption. reflexivity.
Qed.

Lemma month_map_cases (mon : string) (m : Z) :
  month_map !! mon = Some m ->
  In (mon, m)
     [("Jan", 1); ("Feb", 2); ("Mar", 3); ("Apr", 4); ("May", 5); ("Jun", 6);
      ("Jul", 7); ("Aug", 8); ("Sep", 9); ("Oct", 10); ("Nov", 11); ("Dec", 12)].
Proof.
  intros H. apply list_elem_of_In.
  unfold month_map in H. apply elem_of_list_to_map_2 in H. exact H.
Qed.

Lemma month_map_name (mon : string) (m : Z) :
  month_map !! mon = Some m ->
  String.length mon = 3%nat /\ all is_word mon = true /\ 1 <= m <= 12.
Proof.
  intros H. apply month_map_cases in H. simpl in H.
  repeat (destruct H as [H|H];
          [inversion H; subst; vm_compute; repeat split; congruence|]).
  contradiction.
Qed.

(** What [fast_parse_timestamp] returns on a timestamp in the layout. *)
Lemma fast_parse_timestamp_text dd mon yyyy hh mi ss sg zz rest m :
  digits 2 dd -> digits 4 yyyy -> digits 2 hh -> digits 2 mi -> digits 2 ss ->
  is_sign sg = true -> digits 4 zz ->
  month_map !! mon = Some m ->
  fast_parse_timestamp (timestamp_text dd mon yyyy hh mi ss sg zz rest)
  = Some (yyyy +:+ "-" +:+ format_0d 2 m +:+ "-" +:+ dd).
Proof.
  intros Hdd Hy Hh Hmi Hs Hsg Hz Hm.
  destruct (month_map_name _ _ Hm) as (Hl & Hw & Hr).
  unfold fast_parse_timestamp.
  rewrite time_pattern_match_text by assumption. simpl.
  rewrite Hm. destruct (m =? 0) eqn:E; [lia|].
  destruct Hdd as [Hdl Hdd].
  destruct (int_digits dd Hdd) as (n & Hn & _).
  { intros ->. discriminate Hdl. }
  rewrite Hn. rewrite (format_02d_int dd n Hdl Hdd Hn). reflexivity.
Qed.

End Timestamps.

Section ProcessLine.

Lemma elem_of_success_codes (n : Z) : n ∈ success_codes <-> 200 <= n < 300.
Proof.
  unfold success_codes. rewrite elem_of_list_to_set, elem_of_seqZ. lia.
Qed.

(** [is_success_status] of [NginxLogAnalyzer] is the same test. *)
Lemma is_success_status_range (n : Z) :
  NginxLog.is_success_status n = true <-> 200 <= n < 300.
Proof.
  unfold NginxLog.is_success_status, NginxLog.success_status_codes.
  rewrite bool_decide_eq_true, elem_of_list_to_set, elem_of_seqZ. lia.
Qed.

Lemma fast_parse_timestamp_nonempty (t k : string) :
  fast_parse_timestamp t = Some k -> is_empty k = false.
Proof.
  unfold fast_parse_timestamp.
  destruct (time_pattern_match t) as [g|]; [|discriminate].
  destruct (month_map !! month_str g) as [m|]; [|discriminate].
  destruct (m =? 0); [discriminate|].
  destruct (int (day g)) as [d|]; [|discriminate].
  intros H. inversion H. destruct (year g); reflexivity.
Qed.

(** [process_line] on a line that matches the pattern. *)
Lemma process_line_match (self : analyzer) (line : string) (g : log_groups) :
  log_pattern_match (strip line) = Some g ->
  exists n, int (status_code g) = Some n /\ 0 <= n /\
            process_line self line = (recorded self g n, true).
Proof.
  intros Hm. destruct (log_pattern_match_status _ _ Hm) as [Hd Hne].
  destruct (int_digits _ Hd Hne) as (n & Hn & Hpos).
  exists n. split; [exact Hn|]. split; [exact Hpos|].
  unfold process_line, recorded, counted, count_line, count_valid_line,
    count_https_domain1, set_daily_stats. rewrite Hm. simpl.
  destruct (fast_parse_timestamp (timestamp_str g)) as [k|] eqn:Hk.
  - rewrite (fast_parse_timestamp_nonempty _ _ Hk), Hn.
    destruct (startswith (referer g) "https://domain1.com");
      destruct (decide (n ∈ success_codes)); simpl;
      rewrite ?Z.add_0_r; reflexivity.
  - destruct (startswith (referer g) "https://domain1.com"); simpl;
      rewrite ?Z.add_0_r; reflexivity.
Qed.

Lemma process_line_no_match (self : analyzer) (line : string) :
  log_pattern_match (strip line) = None ->
  process_line self line
  = (Analyzer (https_domain1_count self) (daily_stats self)
              (total_lines_processed self + 1) (valid_lines_processed self),
     false).
Proof. intros H. unfold process_line, count_line. rewrite H. reflexivity. Qed.

Lemma stats_at_counted (ds : gmap string day_stats) (k : string) (n : Z) :
  stats_at (counted ds k n) k
  = DayStats (total (stats_at ds k) + 1)
             (success (stats_at ds k)
              + (if decide (200 <= n < 300) then 1 else 0)).
Proof.
  unfold counted, incr_success, incr_total.
  destruct (decide (n ∈ success_codes)) as [Hin|Hin];
    rewrite elem_of_success_codes in Hin;
    destruct (decide (200 <= n < 300)); try contradiction;
    unfold stats_at; rewrite ?lookup_insert_eq; simpl;
    rewrite ?lookup_insert_eq; simpl; f_equal; lia.
Qed.

Lemma lookup_counted_ne (ds : gmap string day_stats) (k k' : string) (n : Z) :
  k <> k' -> counted ds k n !! k' = ds !! k'.
Proof.
  intros Hne. unfold counted, incr_success, incr_total.
  destruct (decide (n ∈ success_codes));
    rewrite ?lookup_insert_ne by exact Hne; reflexivity.
Qed.

End ProcessLine.

Section Merge.

Lemma lookup_counted_eq (ds : gmap string day_stats) (k : string) (n : Z) :
  counted ds k n !! k = Some (stats_at (counted ds k n) k).
Proof.
  unfold stats_at, counted, incr_success, incr_total.
  destruct (decide (n ∈ success_codes)); rewrite !lookup_insert_eq;
    reflexivity.
Qed.

Lemma counted_union (dx dy : gmap string day_stats) (k : string) (n : Z) :
  counted (union_with (fun a b => Some (merge_day a b)) dx dy) k n
  = union_with (fun a b => Some (merge_day a b)) dx (counted dy k n).
Proof.
  apply map_eq. intros i. destruct (decide (k = i)) as [<-|Hne].
  - rewrite lookup_union_with, !lookup_counted_eq, !stats_at_counted.
    unfold stats_at. rewrite lookup_union_with.
    destruct (dx !! k) as [[tx sx]|], (dy !! k) as [[ty sy]|]; simpl;
      unfold merge_day; simpl; do 2 f_equal; lia.
  - rewrite lookup_union_with, !lookup_counted_ne by exact Hne.
    rewrite lookup_union_with. reflexivity.
Qed.

(** A line adds the same to a merged state as to its right part. *)
Lemma process_line_merge (x y : analyzer) (line : string) :
  fst (process_line (merge x y) line) = merge x (fst (process_line y line)).
Proof.
  destruct (log_pattern_match (strip line)) as [g|] eqn:Hm.
  - destruct (process_line_match (merge x y) line g Hm) as (n & Hn & _ & ->).
    destruct (process_line_match y line g Hm) as (n' & Hn' & _ & ->).
    assert (n' = n) as -> by congruence.
    unfold recorded, merge. simpl.
    destruct (fast_parse_timestamp (timestamp_str g)) as [k|];
      rewrite ?counted_union; f_equal; lia.
  - rewrite !process_line_no_match by exact Hm.
    unfold merge. simpl. f_equal; lia.
Qed.

Lemma _process_batch_merge (lines : list string) (x y : analyzer) :
  _process_batch (merge x y) lines = merge x (_process_batch y lines).
Proof.
  unfold _process_batch. revert y.
  induction lines as [|l lines IH]; intros y; simpl; [reflexivity|].
  rewrite process_line_merge. apply IH.
Qed.

Lemma merge_reset_stats (x : analyzer) : merge x reset_stats = x.
Proof.
  destruct x as [c ds t v]. unfold merge, reset_stats. simpl.
  rewrite (right_id ∅ (union_with _)). f_equal; lia.
Qed.

End Merge.

Section Decoding.

Import IO.

Lemma between_cont (lo hi : N) (c : ascii) :
  (128 <= lo)%N -> (hi <= 191)%N -> between lo hi c = true -> is_cont c = true.
Proof.
  unfold is_cont, between. intros Hlo Hhi H.
  apply andb_true_iff in H as [H1 H2].
  apply N.leb_le in H1, H2. apply andb_true_iff.
  split; apply N.leb_le; lia.
Qed.

Lemma is_cont_lf : is_cont LF = false.
Proof. reflexivity. Qed.

Lemma between_lf (lo hi : N) : (128 <= lo)%N -> between lo hi LF = false.
Proof.
  intros H. unfold between. apply andb_false_iff. left.
  apply N.leb_gt. change (code LF) with 10%N. lia.
Qed.

#[local] Opaque is_cont between.

#[local] Ltac split_ifs :=
  repeat match goal with
  | |- context [if ?b then _ else _] => destruct b eqn:?
  | H : context [if ?b then _ else _] |- _ => destruct b eqn:?
  | H : _ && _ = true |- _ => apply andb_true_iff in H as [? ?]
  end.

#[local] Ltac cont_facts :=
  repeat match goal with
  | H : between ?lo ?hi ?c = true |- context [is_cont ?c] =>
      rewrite (between_cont lo hi c ltac:(lia) ltac:(lia) H)
  | H : is_cont ?c = true |- context [is_cont ?c] => rewrite H
  end.

Lemma tail_length_conts (c : ascii) (r : string) (n : nat) :
  tail_length c r = Some n -> conts n r = true.
Proof.
  unfold tail_length.
  destruct r as [|c2 [|c3 [|c4 r]]]; split_ifs; try discriminate;
    intros Hn; inversion Hn; subst; simpl; cont_facts; reflexivity.
Qed.

(** A line feed is never part of a sequence: what the decoder looks ahead
    at stops at it. *)
Lemma tail_length_lf (c : ascii) (a b : string) :
  tail_length c (a +:+ String LF b) = tail_length c a.
Proof.
  unfold tail_length.
  destruct a as [|c2 [|c3 [|c4 a]]]; rewrite ?app_cons, ?app_nil_l;
    try reflexivity;
    rewrite ?is_cont_lf, ?between_lf by lia;
    repeat (simpl; rewrite ?andb_false_r;
      first
      [ reflexivity
      | match goal with
        | |- context [between ?l ?h ?x] => destruct (between l h x)
        | |- context [is_cont ?x] => destruct (is_cont x)
        | |- context [(code ?x =? ?k)%N] => destruct (code x =? k)%N
        | |- context [match ?s with EmptyString => _ | String _ _ => _ end] =>
            destruct s
        end ]).
Qed.

(** Decoding goes through a line feed: the bytes before it and the bytes
    after it are decoded on their own. *)
Lemma decode_go_lf (a b : string) (p : nat) :
  conts p (a +:+ String LF b) = true ->
  decode_go p (a +:+ String LF b)
  = decode_go p a +:+ String LF (decode_go 0 b).
Proof.
  revert p. induction a as [|c a IH]; intros p Hp.
  - rewrite app_nil_l in *. destruct p as [|k].
    + reflexivity.
    + simpl in Hp. rewrite is_cont_lf in Hp. discriminate Hp.
  - rewrite app_cons in *. destruct p as [|k]; simpl.
    + destruct (code c <? 128)%N.
      * rewrite app_cons. f_equal. apply IH. reflexivity.
      * rewrite tail_length_lf.
        destruct (tail_length c a) as [n|] eqn:Hn.
        -- rewrite app_cons. f_equal. apply IH.
           apply (tail_length_conts c). rewrite tail_length_lf. exact Hn.
        -- apply IH. reflexivity.
    + simpl in Hp. apply andb_true_iff in Hp as [_ Hp].
      rewrite app_cons. f_equal. apply IH, Hp.
Qed.

(** Decoding only drops bytes. *)
Lemma decode_go_all (q : ascii -> bool) (s : string) (p : nat) :
  all q s = true -> all q (decode_go p s) = true.
Proof.
  revert p. induction s as [|c s IH]; intros p H; [reflexivity|].
  simpl in H. apply andb_true_iff in H as [Hc Hs].
  destruct p as [|k]; simpl.
  - destruct (code c <? 128)%N; [simpl; rewrite Hc; apply IH, Hs|].
    destruct (tail_length c s); [simpl; rewrite Hc|]; apply IH, Hs.
  - rewrite Hc. apply IH, Hs.
Qed.

Lemma universal_newlines_no_cr (s : string) :
  all not_cr s = true -> universal_newlines s = s.
Proof.
  induction s as [|c s IH]; intros H; [reflexivity|].
  simpl in H. apply andb_true_iff in H as [Hc Hs].
  simpl. unfold not_cr in Hc. apply negb_true_iff in Hc. rewrite Hc.
  f_equal. apply IH, Hs.
Qed.

Lemma readlines_no_lf (a : string) :
  all not_lf a = true -> readlines a = if is_empty a then [] else [a].
Proof.
  induction a as [|c a IH]; intros H; [reflexivity|].
  simpl in H. apply andb_true_iff in H as [Hc Ha].
  simpl. unfold not_lf in Hc. apply negb_true_iff in Hc. rewrite Hc.
  rewrite (IH Ha). destruct a; reflexivity.
Qed.

Lemma readlines_lf (a b : string) :
  all not_lf a = true ->
  readlines (a +:+ String LF b) = (a +:+ String LF "") :: readlines b.
Proof.
  induction a as [|c a IH]; intros H.
  - rewrite !app_nil_l. reflexivity.
  - simpl in H. apply andb_true_iff in H as [Hc Ha].
    rewrite !app_cons. simpl. unfold not_lf in Hc.
    apply negb_true_iff in Hc. rewrite Hc, (IH Ha). reflexivity.
Qed.

(** A text has no line feed, or a first one. *)
Lemma first_lf (s : string) :
  all not_lf s = true \/
  exists a b, s = a +:+ String LF b /\ all not_lf a = true /\
              (String.length b < String.length s)%nat.
Proof.
  induction s as [|c s IH]; [left; reflexivity|].
  destruct (Ascii.eqb c LF) eqn:Hc.
  - apply Ascii.eqb_eq in Hc as ->. right. exists "", s.
    repeat split. simpl. lia.
  - destruct IH as [H|(a & b & -> & Ha & Hl)].
    + left. simpl. unfold not_lf at 1. rewrite Hc. exact H.
    + right. exists (String c a), b. rewrite app_cons. repeat split.
      * simpl. unfold not_lf at 1. rewrite Hc. exact Ha.
      * simpl. lia.
Qed.

(** The lines of the decoded bytes are the decoded lines of the bytes, but
    for a last line of which nothing is left. *)
Lemma readlines_decode (s : string) :
  readlines (decode_utf8_ignore s)
  = List.filter nonempty (map decode_utf8_ignore (readlines s)).
Proof.
  unfold decode_utf8_ignore.
  remember (String.length s) as n eqn:Hn.
  assert (Hle : (String.length s <= n)%nat) by lia. clear Hn.
  revert s Hle. induction n as [|n IH]; intros s Hle.
  - destruct s; [reflexivity | simpl in Hle; lia].
  - destruct (first_lf s) as [H|(a & b & -> & Ha & Hl)].
    + rewrite (readlines_no_lf s H).
      rewrite (readlines_no_lf _ (decode_go_all not_lf s 0 H)).
      destruct s as [|c s]; [reflexivity|].
      cbn [is_empty map List.filter]. unfold nonempty.
      destruct (decode_go 0 (String c s)); reflexivity.
    + rewrite (readlines_lf a b Ha). cbn [map].
      rewrite !decode_go_lf by reflexivity.
      rewrite (readlines_lf _ _ (decode_go_all not_lf a 0 Ha)).
      cbn [List.filter]. unfold nonempty at 1.
      assert (E : is_empty (decode_go 0 a +:+ String LF (decode_go 0 "")) = false)
        by (destruct (decode_go 0 a); reflexivity).
      rewrite E. cbn [negb]. f_equal. apply IH. lia.
Qed.

End Decoding.

Section Strategies.

Lemma observed_process_line (s1 s2 : analyzer) (line : string) :
  observed s1 = observed s2 ->
  observed (process_line s1 line).1 = observed (process_line s2 line).1.
Proof.
  unfold observed. intros H. inversion H as [[Hc Hd Hv]].
  destruct (log_pattern_match (strip line)) as [g|] eqn:Hm.
  - destruct (process_line_match s1 line g Hm) as (n & Hn & _ & ->).
    destruct (process_line_match s2 line g Hm) as (n' & Hn' & _ & ->).
    assert (n' = n) as -> by congruence.
    unfold recorded. simpl. rewrite Hc, Hd, Hv. reflexivity.
  - rewrite !process_line_no_match by exact Hm. simpl.
    rewrite Hc, Hd, Hv. reflexivity.
Qed.

Lemma observed_empty_line (self : analyzer) (line : string) :
  nonempty line = false -> observed (process_line self line).1 = observed self.
Proof.
  unfold nonempty. destruct line; [|discriminate]. intros _.
  rewrite process_line_no_match by reflexivity. reflexivity.
Qed.

(** Empty lines leave no trace in what is observed. *)
Lemma observed_filter_nonempty (lines : list string) (s1 s2 : analyzer) :
  observed s1 = observed s2 ->
  observed (_process_batch s1 lines)
  = observed (_process_batch s2 (List.filter nonempty lines)).
Proof.
  unfold _process_batch. revert s1 s2.
  induction lines as [|l lines IH]; intros s1 s2 H; simpl; [exact H|].
  destruct (nonempty l) eqn:Hl; simpl; apply IH.
  - apply observed_process_line, H.
  - rewrite (observed_empty_line s1 l Hl). exact H.
Qed.

(** The batches of [process_file_streaming] are a grouping of the lines:
    every line goes through [process_line], in the order of the file. *)
Lemma streaming_batches (batch_size : Z) (lines batch : list string)
    (self : analyzer) :
  let '(self', batch') :=
    fold_left (streaming_step batch_size) lines (self, batch) in
  _process_batch self' batch' = _process_batch self (batch ++ lines).
Proof.
  revert self batch. induction lines as [|l lines IH]; intros self batch.
  - simpl. rewrite app_nil_r. reflexivity.
  - simpl. destruct (Z.of_nat (length (batch ++ [l])) >=? batch_size).
    + specialize (IH (_process_batch self (batch ++ [l])) []).
      destruct (fold_left _ lines _) as [s' b']. rewrite IH.
      unfold _process_batch. simpl.
      rewrite <- fold_left_app, <- app_assoc. reflexivity.
    + specialize (IH self (batch ++ [l])).
      destruct (fold_left _ lines _) as [s' b']. rewrite IH.
      rewrite <- app_assoc. reflexivity.
Qed.

Lemma process_file_streaming_lines (self : analyzer) (bytes : string)
    (batch_size : Z) :
  process_file_streaming self bytes batch_size
  = _process_batch self (IO.text_lines bytes).
Proof.
  unfold process_file_streaming.
  pose proof (streaming_batches batch_size (IO.text_lines bytes) [] self) as H.
  destruct (fold_left _ _ _) as [s' b']. simpl in H. rewrite <- H.
  destruct b'; reflexivity.
Qed.

Lemma process_file_mmap_lines (self : analyzer) (bytes : string) :
  process_file_mmap self bytes
  = _process_batch self (map IO.decode_utf8_ignore (IO.mmap_lines bytes)).
Proof.
  unfold process_file_mmap, _process_batch.
  destruct bytes as [|c r]; [reflexivity|]. cbn [is_empty].
  generalize (IO.mmap_lines (String c r)). intros lines. revert self.
  induction lines as [|l lines IH]; intros self; simpl; [reflexivity|].
  apply IH.
Qed.

(** On a file without carriage return the two strategies agree on all that
    is observed. *)
Lemma strategies_agree_without_cr (self : analyzer) (bytes : string)
    (batch_size : Z) :
  no_cr bytes ->
  observed (process_file_streaming self bytes batch_size)
  = observed (process_file_mmap self bytes).
Proof.
  intros H.
  rewrite process_file_streaming_lines, process_file_mmap_lines.
  unfold IO.text_lines, IO.mmap_lines.
  rewrite universal_newlines_no_cr
    by (apply decode_go_all, H).
  rewrite readlines_decode. symmetry.
  apply observed_filter_nonempty. reflexivity.
Qed.

End Strategies.

Section Invariant.

Lemma well_counted_counted (ds : gmap string day_stats) (k : string) (n : Z) :
  well_counted ds -> well_counted (counted ds k n).
Proof.
  intros H k' e He. destruct (decide (k = k')) as [<-|Hne].
  - rewrite lookup_counted_eq, stats_at_counted in He.
    inversion He; subst; clear He. simpl. unfold stats_at.
    destruct (ds !! k) as [e|] eqn:E; simpl.
    + destruct (H k e E) as [? ?].
      destruct (decide (200 <= n < 300)); lia.
    + destruct (decide (200 <= n < 300)); lia.
  - rewrite lookup_counted_ne in He by exact Hne. apply (H k' e He).
Qed.

Lemma well_counted_process_line (self : analyzer) (line : string) :
  well_counted (daily_stats self) ->
  well_counted (daily_stats (process_line self line).1).
Proof.
  intros H. destruct (log_pattern_match (strip line)) as [g|] eqn:Hm.
  - destruct (process_line_match self line g Hm) as (n & _ & _ & ->).
    simpl. destruct (fast_parse_timestamp (timestamp_str g)); [|exact H].
    apply well_counted_counted, H.
  - rewrite process_line_no_match by exact Hm. exact H.
Qed.

(** Every state a fresh analyzer reaches keeps the invariant. *)
Lemma well_counted_aggregate (lines : list string) :
  well_counted (daily_stats (aggregate lines)).
Proof.
  unfold aggregate, _process_batch.
  assert (H : well_counted (daily_stats reset_stats))
    by (intros k e He; simpl in He; rewrite lookup_empty in He;
        discriminate He).
  revert H. generalize reset_stats.
  induction lines as [|l lines IH]; intros self H; simpl; [exact H|].
  apply IH, well_counted_process_line, H.
Qed.

End Invariant.

Section Limit.

Lemma int_limited_short (s : string) :
  (String.length s <= int_max_str_digits)%nat -> int_limited s = int s.
Proof.
  intros H. unfold int_limited.
  destruct (Nat.ltb_spec int_max_str_digits (String.length s)); [lia|].
  reflexivity.
Qed.

Lemma int_limited_long (s : string) :
  (int_max_str_digits < String.length s)%nat -> int_limited s = None.
Proof.
  intros H. unfold int_limited.
  destruct (Nat.ltb_spec int_max_str_digits (String.length s)); [|lia].
  reflexivity.
Qed.

(** Under the limit [process_line] does what it does without it, as long as
    the status has no more digits than the limit allows. *)
Lemma process_line_limited_short (self : analyzer) (line : string)
    (g : log_groups) :
  log_pattern_match (strip line) = Some g ->
  (String.length (status_code g) <= int_max_str_digits)%nat ->
  process_line_limited self line = process_line self line.
Proof.
  intros Hm Hl. unfold process_line_limited, process_line. rewrite Hm.
  rewrite (int_limited_short _ Hl). reflexivity.
Qed.

Lemma process_line_limited_no_match (self : analyzer) (line : string) :
  log_pattern_match (strip line) = None ->
  process_line_limited self line = process_line self line.
Proof.
  intros Hm. unfold process_line_limited, process_line. rewrite Hm.
  reflexivity.
Qed.

End Limit.

(** * The claims *)

(** C1.  On every timestamp written [DD/Mon/YYYY:HH:MM:SS +HHMM] or with a
    minus sign, with a month of [month_map], [fast_parse_timestamp] returns
    the key made of the year as written, the number of the month and the day
    as written.  Hour, minute, second and the signed offset do not enter the
    result: the date is never rolled over a day boundary. *)
Theorem fast_parse_timestamp_written_date dd mon yyyy hh mi ss sg zz m :
  digits 2 dd -> digits 4 yyyy -> digits 2 hh -> digits 2 mi -> digits 2 ss ->
  is_sign sg = true -> digits 4 zz ->
  month_map !! mon = Some m ->
  fast_parse_timestamp (timestamp_text dd mon yyyy hh mi ss sg zz "")
  = Some (yyyy +:+ "-" +:+ format_0d 2 m +:+ "-" +:+ dd).
Proof. apply fast_parse_timestamp_text. Qed.

Lemma fast_parse_timestamp_written_date_witness :
  (digits 2 "28" /\ digits 4 "2019" /\ digits 2 "23" /\ digits 2 "30" /\
   digits 2 "00" /\ is_sign "-" = true /\ digits 4 "0100" /\
   month_map !! "Feb" = Some 2) /\
  fast_parse_timestamp "28/Feb/2019:23:30:00 -0100" = Some "2019-02-28".
Proof.
  split.
  - repeat split; reflexivity.
  - exact (fast_parse_timestamp_written_date
             "28" "Feb" "2019" "23" "30" "00" "-" "0100" 2
             (conj eq_refl eq_refl) (conj eq_refl eq_refl)
             (conj eq_refl eq_refl) (conj eq_refl eq_refl)
             (conj eq_refl eq_refl) eq_refl (conj eq_refl eq_refl)
             eq_refl).
Defined.

(** The other two analyzers do apply the offset: [NginxLogAnalyzer] files
    the same timestamp under the next day. *)
Example get_date_key_applies_offset :
  utc_day "28/Feb/2019:23:30:00 -0100" = Some "2019-03-01".
Proof. vm_compute. reflexivity. Qed.

(** C2, as stated, fails: half past eleven at night on 28 February, one hour
    west of UTC, and half past midnight on 1 March in UTC are the same
    instant, on the UTC day 1 March, and [fast_parse_timestamp] gives them
    two keys. *)
Lemma fast_parse_timestamp_splits_utc_day :
  ~ (forall t1 t2 k1 k2 u,
       fast_parse_timestamp t1 = Some k1 -> fast_parse_timestamp t2 = Some k2 ->
       utc_day t1 = Some u -> utc_day t2 = Some u -> k1 = k2).
Proof.
  intros H.
  specialize (H "28/Feb/2019:23:30:00 -0100" "01/Mar/2019:00:30:00 +0000"
                "2019-02-28" "2019-03-01" "2019-03-01").
  assert (E : "2019-02-28" = "2019-03-01")
    by (apply H; vm_compute; reflexivity).
  discriminate E.
Qed.

(** C2, amended.  Two timestamps in the layout with the same date as written
    (day, month and year) get the same key, whatever their times of day and
    whatever the sign and magnitude of their offsets. *)
Theorem fast_parse_timestamp_same_written_date
    dd mon yyyy m hh1 mi1 ss1 sg1 zz1 hh2 mi2 ss2 sg2 zz2 :
  digits 2 dd -> digits 4 yyyy -> month_map !! mon = Some m ->
  digits 2 hh1 -> digits 2 mi1 -> digits 2 ss1 ->
  is_sign sg1 = true -> digits 4 zz1 ->
  digits 2 hh2 -> digits 2 mi2 -> digits 2 ss2 ->
  is_sign sg2 = true -> digits 4 zz2 ->
  exists k,
    fast_parse_timestamp (timestamp_text dd mon yyyy hh1 mi1 ss1 sg1 zz1 "")
    = Some k /\
    fast_parse_timestamp (timestamp_text dd mon yyyy hh2 mi2 ss2 sg2 zz2 "")
    = Some k.
Proof.
  intros. eexists. split; apply fast_parse_timestamp_text; eassumption.
Qed.

Lemma fast_parse_timestamp_same_written_date_witness :
  exists k,
    fast_parse_timestamp "28/Feb/2019:23:30:00 -0100" = Some k /\
    fast_parse_timestamp "28/Feb/2019:00:30:00 +1400" = Some k.
Proof.
  exact (fast_parse_timestamp_same_written_date
           "28" "Feb" "2019" 2 "23" "30" "00" "-" "0100" "00" "30" "00" "+" "1400"
           (conj eq_refl eq_refl) (conj eq_refl eq_refl) eq_refl
           (conj eq_refl eq_refl) (conj eq_refl eq_refl) (conj eq_refl eq_refl)
           eq_refl (conj eq_refl eq_refl)
           (conj eq_refl eq_refl) (conj eq_refl eq_refl) (conj eq_refl eq_refl)
           eq_refl (conj eq_refl eq_refl)).
Defined.

(** C3: the two strategies do not agree on every file.  Evaluated on
    [cr_file], whose first record ends in a carriage return alone: the
    text-mode reader of [process_file_streaming] ends a line there and both
    records are counted; [readline] on the mapped bytes does not, the two
    records reach [process_line] as one line, and one is counted. *)
Theorem strategies_differ_on_cr_file :
  let s := process_file_streaming reset_stats cr_file 50000 in
  let m := process_file_mmap reset_stats cr_file in
  (valid_lines_processed s = 2 /\ valid_lines_processed m = 1) /\
  (https_domain1_count s = 2 /\ https_domain1_count m = 1) /\
  (daily_stats s !! "2019-02-28" = Some (DayStats 2 1) /\
   daily_stats m !! "2019-02-28" = Some (DayStats 1 1)).
Proof. vm_compute. repeat split; reflexivity. Qed.

(** C4.  A line that matches the pattern adds exactly one to
    [https_domain1_count] when its referer starts with
    [https://domain1.com], and leaves the counter as it is otherwise.  The
    status of the record has no part in it. *)
Theorem process_line_secure_referer (self : analyzer) (line : string)
    (g : log_groups) :
  log_pattern_match (strip line) = Some g ->
  let self' := fst (process_line self line) in
  (startswith (referer g) "https://domain1.com" = true ->
   https_domain1_count self' = https_domain1_count self + 1) /\
  (startswith (referer g) "https://domain1.com" = false ->
   https_domain1_count self' = https_domain1_count self).
Proof.
  intros Hm self'. subst self'.
  destruct (process_line_match self line g Hm) as (n & _ & _ & ->).
  simpl. split; intros ->; lia.
Qed.

Lemma process_line_secure_referer_witness :
  log_pattern_match (strip scenario_B) = Some groups_B /\
  startswith (referer groups_B) "https://domain1.com" = true /\
  https_domain1_count (fst (process_line reset_stats scenario_B)) = 0 + 1.
Proof.
  assert (Hm : log_pattern_match (strip scenario_B) = Some groups_B)
    by (vm_compute; reflexivity).
  assert (Hs : startswith (referer groups_B) "https://domain1.com" = true)
    by (vm_compute; reflexivity).
  exact (conj Hm (conj Hs
           (proj1 (process_line_secure_referer reset_stats scenario_B groups_B Hm)
                  Hs))).
Defined.



(** C6.  A line that matches the pattern and whose timestamp does not
    normalize is still a valid line and still counts for
    [https_domain1_count] when its referer has the prefix; [daily_stats] is
    left exactly as it was. *)
Theorem process_line_timestamp_failure (self : analyzer) (line : string)
    (g : log_groups) :
  log_pattern_match (strip line) = Some g ->
  fast_parse_timestamp (timestamp_str g) = None ->
  process_line self line
  = (Analyzer
       (https_domain1_count self
        + (if startswith (referer g) "https://domain1.com" then 1 else 0))
       (daily_stats self)
       (total_lines_processed self + 1)
       (valid_lines_processed self + 1),
     true).
Proof.
  intros Hm Hk.
  destruct (process_line_match self line g Hm) as (n & _ & _ & ->).
  unfold recorded. rewrite Hk. reflexivity.
Qed.

(** [NginxLogAnalyzer] is stricter: [strptime] raises on such a timestamp
    and [parse_log_line] gives the line up. *)
Example parse_log_line_rejects_bad_month :
  NginxLog.parse_log_line bad_month_line = None.
Proof. vm_compute. reflexivity. Qed.

Lemma process_line_timestamp_failure_witness :
  log_pattern_match (strip bad_month_line) = Some bad_month_groups /\
  fast_parse_timestamp (timestamp_str bad_month_groups) = None /\
  process_line reset_stats bad_month_line = (Analyzer (0 + 1) ∅ (0 + 1) (0 + 1), true).
Proof.
  assert (Hm : log_pattern_match (strip bad_month_line) = Some bad_month_groups)
    by (vm_compute; reflexivity).
  assert (Hk : fast_parse_timestamp (timestamp_str bad_month_groups) = None)
    by (vm_compute; reflexivity).
  exact (conj Hm (conj Hk
           (process_line_timestamp_failure reset_stats bad_month_line
                                           bad_month_groups Hm Hk))).
Defined.

(** C7, as stated, fails on [parse_log_line]: a record without a size and
    the same record with a size of zero are both parsed to the size 0. *)
Lemma absent_size_is_zero :
  ~ (forall line g e,
       log_pattern_match (strip line) = Some g -> size g = "-" ->
       NginxLog.parse_log_line line = Some e -> NginxLog.size e <> 0).
Proof.
  intros H.
  destruct (NginxLog.parse_log_line no_size_line) as [e|] eqn:He;
    [|vm_compute in He; discriminate He].
  apply (H no_size_line no_size_groups e); [reflexivity | reflexivity | exact He |].
  vm_compute in He. inversion He. reflexivity.
Qed.

Example zero_size_parses_to_zero :
  NginxLog.size <$> NginxLog.parse_log_line zero_size_line = Some 0 /\
  NginxLog.size <$> NginxLog.parse_log_line no_size_line = Some 0.
Proof. vm_compute. split; reflexivity. Qed.

(** C7, amended.  For every line that [parse_log_line] accepts, a size
    written as digits is stored as that integer, and the absence marker is
    stored as the integer 0, the value a size of zero is stored as. *)
Theorem parse_log_line_size (line : string) (g : log_groups)
    (e : NginxLog.log_entry) :
  log_pattern_match (strip line) = Some g ->
  NginxLog.parse_log_line line = Some e ->
  (size g = "-" -> NginxLog.size e = 0) /\
  (size g <> "-" -> number (size g) /\ int (size g) = Some (NginxLog.size e)).
Proof.
  intros Hm He. pose proof (log_pattern_match_size _ _ Hm) as Hsz.
  unfold NginxLog.parse_log_line in He. rewrite Hm in He.
  destruct g as [gip gts greq gst gsz gref gua grt]. simpl in *.
  destruct (Datetime.strptime gts) as [t|]; [|discriminate He].
  destruct (int gst) as [n|]; [|discriminate He]. simpl in He.
  destruct (String.eqb gsz "-") eqn:Eq.
  - apply String.eqb_eq in Eq. subst gsz. simpl in He.
    destruct (if String.eqb grt "-" then Some 0%Q else PyFloat.float grt);
      [|discriminate He].
    simpl in He. inversion He; subst. simpl. split; [reflexivity|congruence].
  - apply String.eqb_neq in Eq.
    destruct (int gsz) as [z|] eqn:Ez; [|discriminate He]. simpl in He.
    destruct (if String.eqb grt "-" then Some 0%Q else PyFloat.float grt);
      [|discriminate He].
    simpl in He. inversion He; subst. simpl.
    split; [congruence|]. intros _. split; [|reflexivity].
    destruct Hsz as [Hsz|Hsz]; [congruence | exact Hsz].
Qed.

Lemma parse_log_line_size_witness :
  log_pattern_match (strip no_size_line) = Some no_size_groups /\
  NginxLog.parse_log_line no_size_line = Some no_size_entry /\
  NginxLog.size no_size_entry = 0.
Proof.
  assert (Hm : log_pattern_match (strip no_size_line) = Some no_size_groups)
    by (vm_compute; reflexivity).
  assert (He : NginxLog.parse_log_line no_size_line = Some no_size_entry)
    by (vm_compute; reflexivity).
  exact (conj Hm (conj He
           (proj1 (parse_log_line_size no_size_line no_size_groups
                                       no_size_entry Hm He) eq_refl))).
Defined.


(** C9.  Feeding the first part of a list of lines to a fresh analyzer, the
    second part to another fresh analyzer, and adding the counters of the two
    (the global counter, the line counters, and for every date the total and
    the success) gives the state a single fresh analyzer reaches on the whole
    list. *)
Theorem aggregate_merge (l1 l2 : list string) :
  aggregate (l1 ++ l2) = merge (aggregate l1) (aggregate l2).
Proof.
  unfold aggregate. rewrite <- _process_batch_merge, merge_reset_stats.
  unfold _process_batch. apply fold_left_app.
Qed.


(** What the line of the counterexample leaves: one valid line, one secure
    referer, one request on its day and no success, although its status has
    the value 200; without the limit the success is counted. *)
Example process_line_long_status_state :
  int long_status = Some 200 /\
  process_line_limited reset_stats long_status_line
  = (Analyzer 1 {["2019-02-28" := DayStats 1 0]} 1 1, false) /\
  process_line reset_stats long_status_line
  = (Analyzer 1 {["2019-02-28" := DayStats 1 1]} 1 1, true).
Proof. vm_compute. repeat split; reflexivity. Qed.



(** * Further properties of the analyzers *)

Section Accounting.

Lemma process_line_counters (self : analyzer) (line : string) :
  let self' := (process_line self line).1 in
  total_lines_processed self' = total_lines_processed self + 1 /\
  valid_lines_processed self'
  = valid_lines_processed self + (if valid_line line then 1 else 0) /\
  https_domain1_count self'
  = https_domain1_count self + (if secure_line line then 1 else 0).
Proof.
  unfold valid_line, secure_line.
  destruct (log_pattern_match (strip line)) as [g|] eqn:Hm.
  - destruct (process_line_match self line g Hm) as (n & _ & _ & ->).
    simpl. repeat split.
  - rewrite process_line_no_match by exact Hm. simpl. repeat split; lia.
Qed.

Lemma count_cons (p : string -> bool) (l : string) (lines : list string) :
  count p (l :: lines) = (if p l then 1 else 0) + count p lines.
Proof. unfold count. simpl. destruct (p l); simpl; lia. Qed.

(** The counters after a batch, for the proofs below. *)
Lemma _process_batch_counts (self : analyzer) (lines : list string) :
  total_lines_processed (_process_batch self lines)
  = total_lines_processed self + Z.of_nat (length lines) /\
  valid_lines_processed (_process_batch self lines)
  = valid_lines_processed self + count valid_line lines /\
  https_domain1_count (_process_batch self lines)
  = https_domain1_count self + count secure_line lines.
Proof.
  unfold _process_batch. revert self.
  induction lines as [|l lines IH]; intros self.
  - unfold count. simpl. repeat split; lia.
  - cbn [fold_left]. destruct (IH (process_line self l).1) as (IHt & IHv & IHc).
    destruct (process_line_counters self l) as (Ht & Hv & Hc).
    cbn zeta in Ht, Hv, Hc.
    rewrite IHt, IHv, IHc, Ht, Hv, Hc, !count_cons.
    cbn [length]. repeat split; lia.
Qed.

(** X1.  [_process_batch] accounts for every line it is given: the lines
    seen grow by the number of lines, the valid lines by the number of lines
    that match the pattern once stripped, and the secure-referer counter by
    the number of those whose referer has the prefix. *)
Theorem _process_batch_counters (self : analyzer) (lines : list string) :
  let self' := _process_batch self lines in
  total_lines_processed self'
  = total_lines_processed self + Z.of_nat (length lines) /\
  valid_lines_processed self'
  = valid_lines_processed self + count valid_line lines /\
  https_domain1_count self'
  = https_domain1_count self + count secure_line lines.
Proof.
  unfold _process_batch. revert self.
  induction lines as [|l lines IH]; intros self.
  - unfold count. simpl. repeat split; lia.
  - cbn [fold_left]. specialize (IH (process_line self l).1).
    destruct (process_line_counters self l) as (Ht & Hv & Hc).
    cbn zeta in IH. destruct IH as (IHt & IHv & IHc).
    cbn zeta. rewrite IHt, IHv, IHc, Ht, Hv, Hc, !count_cons.
    cbn [length]. repeat split; lia.
Qed.

Lemma secure_line_valid (line : string) :
  secure_line line = true -> valid_line line = true.
Proof.
  unfold secure_line, valid_line.
  destruct (log_pattern_match (strip line)); [reflexivity | discriminate].
Qed.

Lemma count_le (p q : string -> bool) (lines : list string) :
  (forall l, p l = true -> q l = true) -> 0 <= count p lines <= count q lines.
Proof.
  intros H. induction lines as [|l lines IH].
  - unfold count. simpl. lia.
  - rewrite !count_cons. specialize (H l).
    destruct (p l), (q l); first [lia | discriminate (H eq_refl)].
Qed.

Lemma count_le_length (p : string -> bool) (lines : list string) :
  count p lines <= Z.of_nat (length lines).
Proof.
  induction lines as [|l lines IH].
  - unfold count. simpl. lia.
  - rewrite count_cons. cbn [length]. destruct (p l); lia.
Qed.

(** X2.  The order of the counters is an invariant of [_process_batch]:
    from a state where the secure referers are among the valid lines and the
    valid lines among the lines seen, every batch leads to such a state, so
    the two percentages of [print_results] never exceed 100. *)
Theorem _process_batch_counters_ordered (self : analyzer)
    (lines : list string) :
  counters_ordered self -> counters_ordered (_process_batch self lines).
Proof.
  unfold counters_ordered. intros [[H0 H1] H2].
  destruct (_process_batch_counts self lines) as (Ht & Hv & Hc).
  cbn zeta in *. rewrite Ht, Hv, Hc.
  pose proof (count_le secure_line valid_line lines secure_line_valid).
  pose proof (count_le_length valid_line lines). lia.
Qed.

Lemma _process_batch_counters_ordered_witness :
  counters_ordered reset_stats /\
  counters_ordered (_process_batch reset_stats [scenario_A; bad_month_line]).
Proof.
  assert (H : counters_ordered reset_stats)
    by (unfold counters_ordered; simpl; lia).
  exact (conj H (_process_batch_counters_ordered
                   reset_stats [scenario_A; bad_month_line] H)).
Defined.

End Accounting.

Section Sums.

Variable w : day_stats -> Z.

Lemma msum_empty : msum w ∅ = 0.
Proof. unfold msum. apply map_fold_empty. Qed.

Lemma msum_insert_None (ds : gmap string day_stats) (k : string)
    (x : day_stats) :
  ds !! k = None -> msum w (<[k:=x]> ds) = msum w ds + w x.
Proof.
  intros H. unfold msum. rewrite map_fold_insert_L; [reflexivity| |exact H].
  intros. lia.
Qed.

Lemma msum_insert (ds : gmap string day_stats) (k : string) (x : day_stats) :
  msum w (<[k:=x]> ds) = msum w ds - from_option w 0 (ds !! k) + w x.
Proof.
  destruct (ds !! k) as [old|] eqn:E; simpl.
  - rewrite <- (insert_delete_id ds k old E) at 2.
    rewrite <- (insert_delete_eq ds k x).
    rewrite !msum_insert_None by apply lookup_delete_eq. lia.
  - rewrite msum_insert_None by exact E. lia.
Qed.

End Sums.

Section DayTotals.

Lemma sum_totals_msum (ds : gmap string day_stats) :
  sum_totals ds = msum total ds.
Proof. reflexivity. Qed.

Lemma sum_successes_msum (ds : gmap string day_stats) :
  sum_successes ds = msum success ds.
Proof. reflexivity. Qed.

Lemma sum_totals_counted (ds : gmap string day_stats) (k : string) (n : Z) :
  sum_totals (counted ds k n) = sum_totals ds + 1.
Proof.
  rewrite !sum_totals_msum. unfold counted, incr_success, incr_total, stats_at.
  destruct (decide (n ∈ success_codes));
    rewrite !msum_insert; repeat rewrite lookup_insert_eq;
    destruct (ds !! k); simpl; unfold sum_totals, msum; lia.
Qed.

Lemma process_line_sum_totals (self : analyzer) (line : string) :
  sum_totals (daily_stats (process_line self line).1)
  = sum_totals (daily_stats self) + (if dated_line line then 1 else 0).
Proof.
  unfold dated_line.
  destruct (log_pattern_match (strip line)) as [g|] eqn:Hm.
  - destruct (process_line_match self line g Hm) as (n & _ & _ & ->).
    simpl. destruct (fast_parse_timestamp (timestamp_str g)).
    + apply sum_totals_counted.
    + lia.
  - rewrite process_line_no_match by exact Hm. simpl. lia.
Qed.

Lemma _process_batch_sum_totals (self : analyzer) (lines : list string) :
  sum_totals (daily_stats (_process_batch self lines))
  = sum_totals (daily_stats self) + count dated_line lines.
Proof.
  unfold _process_batch. revert self.
  induction lines as [|l lines IH]; intros self.
  - unfold count. simpl. lia.
  - cbn [fold_left]. rewrite IH, process_line_sum_totals, count_cons. lia.
Qed.

Lemma dated_line_valid (line : string) :
  dated_line line = true -> valid_line line = true.
Proof.
  unfold dated_line, valid_line.
  destruct (log_pattern_match (strip line)); [reflexivity | discriminate].
Qed.

Lemma msum_le (w1 w2 : day_stats -> Z) (ds : gmap string day_stats) :
  (forall k e, ds !! k = Some e -> w1 e <= w2 e) -> msum w1 ds <= msum w2 ds.
Proof.
  induction ds as [|k x ds Hk IH] using map_ind; intros H.
  - rewrite !msum_empty. lia.
  - rewrite !msum_insert_None by exact Hk.
    assert (w1 x <= w2 x) by (apply (H k); apply lookup_insert_eq).
    assert (msum w1 ds <= msum w2 ds).
    { apply IH. intros j e Hj. apply (H j).
      rewrite lookup_insert_ne; [exact Hj|]. intros ->. congruence. }
    lia.
Qed.

Lemma msum_nonneg (w : day_stats -> Z) (ds : gmap string day_stats) :
  (forall k e, ds !! k = Some e -> 0 <= w e) -> 0 <= msum w ds.
Proof.
  induction ds as [|k x ds Hk IH] using map_ind; intros H.
  - rewrite msum_empty. lia.
  - rewrite msum_insert_None by exact Hk.
    assert (0 <= w x) by (apply (H k); apply lookup_insert_eq).
    assert (0 <= msum w ds).
    { apply IH. intros j e Hj. apply (H j).
      rewrite lookup_insert_ne; [exact Hj|]. intros ->. congruence. }
    lia.
Qed.

Lemma total_requests_get_results (self : analyzer) (t : option string) :
  total_requests (get_results self t).2 = sum_totals (daily_stats self) /\
  total_success (get_results self t).2 = sum_successes (daily_stats self).
Proof.
  unfold total_requests, total_success, get_results, sum_totals, sum_successes.
  cbn [snd]. rewrite !map_fold_fmap. split; reflexivity.
Qed.

(** X3.  The requests [print_results] totals over all days are exactly the
    lines that matched the pattern and whose timestamp gave a key: for a
    fresh analyzer fed [lines], [total_requests] is their number, it is at
    most the number of valid lines, and [total_success] lies between 0 and
    it. *)
Theorem total_requests_aggregate (lines : list string) (t : option string) :
  let all_stats := (get_results (aggregate lines) t).2 in
  total_requests all_stats = count dated_line lines /\
  total_requests all_stats <= valid_lines_processed (aggregate lines) /\
  0 <= total_success all_stats <= total_requests all_stats.
Proof.
  cbn zeta.
  destruct (total_requests_get_results (aggregate lines) t) as [-> ->].
  unfold aggregate. rewrite _process_batch_sum_totals.
  destruct (_process_batch_counts reset_stats lines) as (_ & -> & _).
  pose proof (count_le dated_line valid_line lines dated_line_valid) as Hc.
  assert (E : sum_totals (daily_stats reset_stats) = 0) by reflexivity.
  rewrite E. simpl. split; [lia|]. split; [lia|].
  rewrite <- (Z.add_0_l (count dated_line lines)), <- E.
  rewrite <- _process_batch_sum_totals.
  pose proof (well_counted_aggregate lines) as W. unfold aggregate in W.
  rewrite sum_successes_msum, sum_totals_msum. split.
  - apply msum_nonneg. intros k e He. apply (W k e He).
  - apply msum_le. intros k e He. apply (W k e He).
Qed.

End DayTotals.

Section Rates.

Lemma percent_bounds (s t : Z) :
  0 < t -> 0 <= s <= t -> (0 <= percent s t)%Q /\ (percent s t <= 100)%Q.
Proof.
  intros Ht Hs. unfold percent, Qle, Qdiv, Qmult, Qinv, inject_Z.
  destruct t as [|p|p]; try lia. simpl. split; nia.
Qed.

(** X4.  In every state a fresh analyzer reaches, a day has an entry only
    if it has records, with its successes among them; so for every target
    date [get_results] returns a rate between 0 and 100, and for a date that
    has an entry the rate is [success / total * 100] of that entry, never the
    fallback for a zero total. *)
Theorem get_results_rate_bounded (lines : list string) (target : string) :
  let self := aggregate lines in
  let rate := (get_results self (Some target)).1.2 in
  well_counted (daily_stats self) /\
  (0 <= rate)%Q /\ (rate <= 100)%Q /\
  (target <> "" ->
   forall e, daily_stats self !! target = Some e ->
             rate = percent (success e) (total e)).
Proof.
  cbn zeta. pose proof (well_counted_aggregate lines) as W.
  split; [exact W|]. unfold get_results. cbn [fst snd].
  destruct target as [|c r]; cbn [is_empty].
  - repeat split; try discriminate. congruence.
  - destruct (daily_stats (aggregate lines) !! String c r) as [e|] eqn:E.
    + destruct (W _ _ E) as [Ht Hs].
      destruct (Z.gtb_spec (total e) 0); [|lia].
      destruct (percent_bounds (success e) (total e) Ht Hs) as [H1 H2].
      repeat split; try assumption. intros _ e' He'. congruence.
    + repeat split; try discriminate.
Qed.

End Rates.

Section Composition.

(** X5.  The batch size of [process_file_streaming] has no effect on the
    result: whatever it is, the lines of the file go through [process_line]
    one by one in the order of the file. *)
Theorem process_file_streaming_batch_size (self : analyzer) (bytes : string)
    (batch_size batch_size' : Z) :
  process_file_streaming self bytes batch_size
  = _process_batch self (IO.text_lines bytes) /\
  process_file_streaming self bytes batch_size
  = process_file_streaming self bytes batch_size'.
Proof.
  rewrite !process_file_streaming_lines. split; reflexivity.
Qed.

(** X6.  On a file that holds no carriage return, [process_file_streaming]
    and [process_file_mmap] reach the same secure-referer counter, the same
    counters for every day and the same number of valid lines, from any
    state and for any batch size, also when the file holds bytes that are
    not UTF-8. *)
Theorem process_file_mmap_agrees_without_cr (self : analyzer) (bytes : string)
    (batch_size : Z) :
  no_cr bytes ->
  https_domain1_count (process_file_streaming self bytes batch_size)
  = https_domain1_count (process_file_mmap self bytes) /\
  daily_stats (process_file_streaming self bytes batch_size)
  = daily_stats (process_file_mmap self bytes) /\
  valid_lines_processed (process_file_streaming self bytes batch_size)
  = valid_lines_processed (process_file_mmap self bytes).
Proof.
  intros H.
  pose proof (strategies_agree_without_cr self bytes batch_size H) as E.
  unfold observed in E. inversion E. repeat split; assumption.
Qed.

Lemma process_file_mmap_agrees_without_cr_witness :
  no_cr (scenario_A +:+ String IO.LF (scenario_B +:+ String IO.LF "")) /\
  https_domain1_count
    (process_file_streaming reset_stats
       (scenario_A +:+ String IO.LF (scenario_B +:+ String IO.LF "")) 1)
  = https_domain1_count
      (process_file_mmap reset_stats
         (scenario_A +:+ String IO.LF (scenario_B +:+ String IO.LF ""))).
Proof.
  assert (H : no_cr (scenario_A +:+ String IO.LF
                       (scenario_B +:+ String IO.LF "")))
    by (vm_compute; reflexivity).
  exact (conj H (proj1 (process_file_mmap_agrees_without_cr
                          reset_stats _ 1 H))).
Defined.

Lemma _process_batch_from (self : analyzer) (lines : list string) :
  _process_batch self lines = merge self (aggregate lines).
Proof.
  unfold aggregate. rewrite <- _process_batch_merge, merge_reset_stats.
  reflexivity.
Qed.

Lemma lookup_merge (x y : analyzer) (k : string) :
  daily_stats (merge x y) !! k
  = union_with (fun a b => Some (merge_day a b))
               (daily_stats x !! k) (daily_stats y !! k).
Proof. unfold merge. simpl. apply lookup_union_with. Qed.

(** X7.  Nothing is ever taken back.  Whatever the state and the lines,
    after [_process_batch] no counter is smaller than before, every day that
    had an entry still has one, and neither its total nor its success is
    smaller; what the batch adds is what a fresh analyzer would count on the
    same lines. *)
Theorem _process_batch_monotone (self : analyzer) (lines : list string) :
  let self' := _process_batch self lines in
  self' = merge self (aggregate lines) /\
  https_domain1_count self <= https_domain1_count self' /\
  valid_lines_processed self <= valid_lines_processed self' /\
  total_lines_processed self <= total_lines_processed self' /\
  forall k e, daily_stats self !! k = Some e ->
    exists e', daily_stats self' !! k = Some e' /\
               total e <= total e' /\ success e <= success e'.
Proof.
  cbn zeta. split; [apply _process_batch_from|].
  destruct (_process_batch_counts self lines) as (Ht & Hv & Hc).
  cbn zeta in *. rewrite Ht, Hv, Hc.
  pose proof (count_le secure_line secure_line lines (fun _ H => H)).
  pose proof (count_le valid_line valid_line lines (fun _ H => H)).
  repeat split; try lia.
  intros k e He. rewrite _process_batch_from, lookup_merge, He.
  pose proof (well_counted_aggregate lines) as W.
  destruct (daily_stats (aggregate lines) !! k) as [d|] eqn:Ed; simpl.
  - destruct (W k d Ed). eexists. split; [reflexivity|]. simpl. lia.
  - exists e. split; [reflexivity|]. lia.
Qed.

End Composition.

Section Order.

Lemma merge_day_comm (a b : day_stats) : merge_day a b = merge_day b a.
Proof. unfold merge_day. f_equal; lia. Qed.

Lemma merge_day_assoc (a b c : day_stats) :
  merge_day (merge_day a b) c = merge_day a (merge_day b c).
Proof. unfold merge_day. simpl. f_equal; lia. Qed.

Lemma merge_comm (x y : analyzer) : merge x y = merge y x.
Proof.
  unfold merge. f_equal; try lia.
  apply map_eq. intros k. rewrite !lookup_union_with.
  destruct (daily_stats x !! k) as [a|], (daily_stats y !! k) as [b|]; simpl;
    try reflexivity.
  f_equal. apply merge_day_comm.
Qed.

Lemma merge_assoc (x y z : analyzer) :
  merge (merge x y) z = merge x (merge y z).
Proof.
  unfold merge. simpl. f_equal; try lia.
  apply map_eq. intros k. rewrite !lookup_union_with.
  destruct (daily_stats x !! k), (daily_stats y !! k), (daily_stats z !! k);
    simpl; rewrite ?merge_day_assoc; reflexivity.
Qed.

Lemma aggregate_cons (l : string) (lines : list string) :
  aggregate (l :: lines) = merge (aggregate [l]) (aggregate lines).
Proof.
  rewrite <- _process_batch_from. reflexivity.
Qed.

Lemma aggregate_Permutation (l1 l2 : list string) :
  Permutation l1 l2 -> aggregate l1 = aggregate l2.
Proof.
  induction 1 as [|x l l' _ IH|x y l|l l' l'' _ IH1 _ IH2].
  - reflexivity.
  - rewrite (aggregate_cons x l), (aggregate_cons x l'), IH. reflexivity.
  - rewrite (aggregate_cons y (x :: l)), (aggregate_cons x l),
      (aggregate_cons x (y :: l)), (aggregate_cons y l).
    rewrite <- !merge_assoc, (merge_comm (aggregate [y])). reflexivity.
  - congruence.
Qed.

(** X8.  The order of the lines does not matter: two batches that hold the
    same lines in any order lead [_process_batch] from the same state to the
    same state. *)
Theorem _process_batch_Permutation (self : analyzer) (l1 l2 : list string) :
  Permutation l1 l2 -> _process_batch self l1 = _process_batch self l2.
Proof.
  intros H. rewrite !_process_batch_from, (aggregate_Permutation l1 l2 H).
  reflexivity.
Qed.

Lemma _process_batch_Permutation_witness :
  Permutation [scenario_A; bad_month_line] [bad_month_line; scenario_A] /\
  _process_batch reset_stats [scenario_A; bad_month_line]
  = _process_batch reset_stats [bad_month_line; scenario_A].
Proof.
  assert (H : Permutation [scenario_A; bad_month_line]
                          [bad_month_line; scenario_A])
    by apply perm_swap.
  exact (conj H (_process_batch_Permutation reset_stats _ _ H)).
Defined.

End Order.

Section Normalizer.

(** Soundness of [time_pattern.match]: a text that matches starts with a
    timestamp in the layout, made of the groups. *)
Lemma time_pattern_match_sound (t : string) (g : time_groups) :
  time_pattern_match t = Some g ->
  exists sg zz rest,
    tz g = String sg zz /\
    digits 2 (day g) /\
    (String.length (month_str g) = 3%nat /\ all is_word (month_str g) = true) /\
    digits 4 (year g) /\ digits 2 (hour g) /\ digits 2 (minute g) /\
    digits 2 (second g) /\ is_sign sg = true /\ digits 4 zz /\
    t = timestamp_text (day g) (month_str g) (year g) (hour g) (minute g)
                       (second g) sg zz rest.
Proof.
  unfold time_pattern_match. intros H.
  repeat match type of H with
  | context [exactly ?n ?p ?x] =>
      let E := fresh "E" in
      destruct (exactly n p x) as [[? ?]|] eqn:E; simpl in H;
      [apply exactly_spec in E; destruct E as (? & ? & ?) | discriminate H]
  | context [lit ?l ?x] =>
      let E := fresh "E" in
      destruct (lit l x) eqn:E; simpl in H;
      [apply lit_spec in E | discriminate H]
  end.
  inversion H; subst; clear H. simpl.
  match goal with
  | Hl : String.length ?s = 1%nat, Hs : all is_sign ?s = true |- _ =>
      destruct s as [|sg [|? ?]]; try discriminate Hl;
      simpl in Hs; rewrite andb_true_r in Hs
  end.
  do 3 eexists. split; [reflexivity|].
  unfold digits, timestamp_text.
  repeat match goal with |- _ /\ _ => split end; try eassumption.
  repeat first [rewrite app_assoc_s | rewrite app_cons | rewrite app_nil_l].
  reflexivity.
Qed.

(** X9.  On ASCII text [fast_parse_timestamp] returns a key exactly when
    the text starts with two digits, a slash, a month of [month_map] spelled
    as in the table, a slash, four digits, three times a colon and two
    digits, a space, a sign and four digits; the key is then the year, the
    number of the month and the day as written.  Every other ASCII text
    gives [None], and nothing more is checked: neither the range of the day,
    of the time or of the zone, nor what follows the zone.  (The pattern of
    the source also reads the decimal digits of other scripts, which are not
    ASCII; the statement does not cover such text.) *)
Theorem fast_parse_timestamp_iff (t k : string) :
  ascii_text t ->
  (fast_parse_timestamp t = Some k <->
   exists dd mon yyyy hh mi ss sg zz rest m,
     digits 2 dd /\ digits 4 yyyy /\ digits 2 hh /\ digits 2 mi /\
     digits 2 ss /\ is_sign sg = true /\ digits 4 zz /\
     month_map !! mon = Some m /\
     t = timestamp_text dd mon yyyy hh mi ss sg zz rest /\
     k = yyyy +:+ "-" +:+ format_0d 2 m +:+ "-" +:+ dd).
Proof.
  intros _. split.
  - unfold fast_parse_timestamp.
    destruct (time_pattern_match t) as [g|] eqn:Hg; [|discriminate].
    destruct (time_pattern_match_sound t g Hg)
      as (sg & zz & rest & _ & Hd & _ & Hy & Hh & Hmi & Hs & Hsg & Hz & Ht).
    destruct (month_map !! month_str g) as [m|] eqn:Hm; [|discriminate].
    destruct (m =? 0); [discriminate|].
    destruct (int (day g)) as [d|] eqn:Hi; [|discriminate].
    intros H. inversion H; subst k; clear H.
    exists (day g), (month_str g), (year g), (hour g), (minute g), (second g),
           sg, zz, rest, m.
    destruct Hd as [Hdl Hdd].
    rewrite (format_02d_int (day g) d Hdl Hdd Hi).
    unfold digits in *. intuition auto.
  - intros (dd & mon & yyyy & hh & mi & ss & sg & zz & rest & m &
            Hd & Hy & Hh & Hmi & Hs & Hsg & Hz & Hm & -> & ->).
    apply fast_parse_timestamp_text; assumption.
Qed.

Lemma fast_parse_timestamp_iff_witness :
  ascii_text "28/Feb/2019:13:17:10 +0000 and more" /\
  (fast_parse_timestamp "28/Feb/2019:13:17:10 +0000 and more"
   = Some "2019-02-28" <->
   exists dd mon yyyy hh mi ss sg zz rest m,
     digits 2 dd /\ digits 4 yyyy /\ digits 2 hh /\ digits 2 mi /\
     digits 2 ss /\ is_sign sg = true /\ digits 4 zz /\
     month_map !! mon = Some m /\
     "28/Feb/2019:13:17:10 +0000 and more"
     = timestamp_text dd mon yyyy hh mi ss sg zz rest /\
     "2019-02-28" = yyyy +:+ "-" +:+ format_0d 2 m +:+ "-" +:+ dd).
Proof.
  assert (H : ascii_text "28/Feb/2019:13:17:10 +0000 and more")
    by (vm_compute; reflexivity).
  exact (conj H (fast_parse_timestamp_iff _ "2019-02-28" H)).
Defined.

Lemma app_inj_length (a a' b b' : string) :
  String.length a = String.length a' -> a +:+ b = a' +:+ b' ->
  a = a' /\ b = b'.
Proof.
  revert a'. induction a as [|c a IH]; intros [|c' a'] Hl H;
    try discriminate Hl.
  - split; [reflexivity | exact H].
  - rewrite !app_cons in H. inversion H; subst.
    simpl in Hl. destruct (IH a' ltac:(lia) ltac:(assumption)) as [-> ->].
    split; reflexivity.
Qed.

Lemma month_number_inj (mon mon' : string) (m m' : Z) :
  month_map !! mon = Some m -> month_map !! mon' = Some m' ->
  format_0d 2 m = format_0d 2 m' -> mon = mon'.
Proof.
  intros H H' E. apply month_map_cases in H, H'. simpl in H, H'.
  repeat (destruct H as [H|H]; [inversion H; subst; clear H|]);
    try contradiction;
    repeat (destruct H' as [H'|H']; [inversion H'; subst; clear H'|]);
    try contradiction; first [reflexivity | vm_compute in E; discriminate E].
Qed.

Lemma month_number_length (mon : string) (m : Z) :
  month_map !! mon = Some m -> String.length (format_0d 2 m) = 2%nat.
Proof.
  intros H. apply month_map_cases in H. simpl in H.
  repeat (destruct H as [H|H]; [inversion H; subst; reflexivity|]).
  contradiction.
Qed.

(** X10.  Two ASCII timestamps are filed under the same key only if they
    are written with the same day, the same month and the same year: on
    ASCII text the key keeps all of the written date.  (A day written in the
    digits of another script is converted by [int] and shares the key of the
    ASCII day; such text is not ASCII and not covered.) *)
Theorem fast_parse_timestamp_key_inj (t1 t2 k : string)
    (g1 g2 : time_groups) :
  ascii_text t1 -> ascii_text t2 ->
  time_pattern_match t1 = Some g1 -> time_pattern_match t2 = Some g2 ->
  fast_parse_timestamp t1 = Some k -> fast_parse_timestamp t2 = Some k ->
  day g1 = day g2 /\ month_str g1 = month_str g2 /\ year g1 = year g2.
Proof.
  intros _ _ Hg1 Hg2 H1 H2. unfold fast_parse_timestamp in H1, H2.
  rewrite Hg1 in H1. rewrite Hg2 in H2.
  destruct (time_pattern_match_sound t1 g1 Hg1)
    as (_ & _ & _ & _ & [Hdl1 Hdd1] & _ & [Hyl1 _] & _).
  destruct (time_pattern_match_sound t2 g2 Hg2)
    as (_ & _ & _ & _ & [Hdl2 Hdd2] & _ & [Hyl2 _] & _).
  destruct (month_map !! month_str g1) as [m1|] eqn:Hm1; [|discriminate].
  destruct (month_map !! month_str g2) as [m2|] eqn:Hm2; [|discriminate].
  destruct (m1 =? 0); [discriminate|]. destruct (m2 =? 0); [discriminate|].
  destruct (int (day g1)) as [d1|] eqn:Hi1; [|discriminate].
  destruct (int (day g2)) as [d2|] eqn:Hi2; [|discriminate].
  rewrite (format_02d_int _ _ Hdl1 Hdd1 Hi1) in H1.
  rewrite (format_02d_int _ _ Hdl2 Hdd2 Hi2) in H2.
  inversion H1 as [E1]. inversion H2 as [E2]. rewrite <- E2 in E1.
  apply app_inj_length in E1 as [Ey E1]; [|congruence].
  rewrite !app_cons, !app_nil_l in E1. inversion E1 as [E3].
  apply app_inj_length in E3 as [Em E3].
  - inversion E3 as [Ed].
    repeat split; try assumption.
    apply (month_number_inj _ _ m1 m2); assumption.
  - rewrite (month_number_length _ _ Hm1), (month_number_length _ _ Hm2).
    reflexivity.
Qed.

End Normalizer.

Lemma fast_parse_timestamp_key_inj_witness :
  ascii_text "28/Feb/2019:23:30:00 -0100" /\
  ascii_text "28/Feb/2019:00:30:00 +1400" /\
  time_pattern_match "28/Feb/2019:23:30:00 -0100"
  = Some (TimeGroups "28" "Feb" "2019" "23" "30" "00" "-0100") /\
  time_pattern_match "28/Feb/2019:00:30:00 +1400"
  = Some (TimeGroups "28" "Feb" "2019" "00" "30" "00" "+1400") /\
  fast_parse_timestamp "28/Feb/2019:23:30:00 -0100" = Some "2019-02-28" /\
  fast_parse_timestamp "28/Feb/2019:00:30:00 +1400" = Some "2019-02-28" /\
  "28" = "28" /\ "Feb" = "Feb" /\ "2019" = "2019".
Proof.
  assert (A1 : ascii_text "28/Feb/2019:23:30:00 -0100")
    by (vm_compute; reflexivity).
  assert (A2 : ascii_text "28/Feb/2019:00:30:00 +1400")
    by (vm_compute; reflexivity).
  assert (H1 : time_pattern_match "28/Feb/2019:23:30:00 -0100"
               = Some (TimeGroups "28" "Feb" "2019" "23" "30" "00" "-0100"))
    by (vm_compute; reflexivity).
  assert (H2 : time_pattern_match "28/Feb/2019:00:30:00 +1400"
               = Some (TimeGroups "28" "Feb" "2019" "00" "30" "00" "+1400"))
    by (vm_compute; reflexivity).
  assert (H3 : fast_parse_timestamp "28/Feb/2019:23:30:00 -0100"
               = Some "2019-02-28") by (vm_compute; reflexivity).
  assert (H4 : fast_parse_timestamp "28/Feb/2019:00:30:00 +1400"
               = Some "2019-02-28") by (vm_compute; reflexivity).
  exact (conj A1 (conj A2 (conj H1 (conj H2 (conj H3 (conj H4
           (fast_parse_timestamp_key_inj _ _ _ _ _ A1 A2 H1 H2 H3 H4))))))).
Defined.

Section Requests.

Lemma span_blank_join (s a r : string) :
  span NginxLog.not_blank s = (a, r) ->
  all NginxLog.not_blank a = true /\
  (r = "" /\ s = a \/ exists r', r = String " " r' /\ s = a +:+ String " " r').
Proof.
  intros H. destruct (span_spec _ _ _ _ H) as [-> Ha]. split; [exact Ha|].
  revert r H. induction a as [|c a IH]; intros r H.
  - rewrite app_nil_l in *. destruct r as [|d r]; [left; split; reflexivity|].
    right. unfold span in H. fold span in H.
    destruct (NginxLog.not_blank d) eqn:Hd.
    + destruct (span NginxLog.not_blank r); discriminate H.
    + unfold NginxLog.not_blank in Hd. apply negb_false_iff in Hd.
      apply Ascii.eqb_eq in Hd as ->. exists r. split; reflexivity.
  - rewrite app_cons in H. unfold span in H. fold span in H.
    simpl in Ha. apply andb_true_iff in Ha as [Hc Ha]. rewrite Hc in H.
    destruct (span NginxLog.not_blank (a +:+ r)) as [a' r'] eqn:E.
    inversion H; subst a' r'.
    destruct (IH Ha r E) as [[-> _]|(r' & -> & _)].
    + left. split; [reflexivity|]. rewrite app_nil_r_s. reflexivity.
    + right. exists r'. split; reflexivity.
Qed.

(** X11.  [request.split(' ', 2)] loses nothing: the parts, at most three,
    joined by single spaces give the request back; no space is left in the
    first part, nor in the second when there is a third. *)
Theorem split_request_join (request : string) :
  let parts := NginxLog.split_request request in
  join_blank parts = request /\
  (1 <= length parts <= 3)%nat /\
  all NginxLog.not_blank (nth 0 parts "") = true /\
  (length parts = 3%nat -> all NginxLog.not_blank (nth 1 parts "") = true).
Proof.
  cbn zeta. unfold NginxLog.split_request.
  destruct (span NginxLog.not_blank request) as [a r] eqn:E1.
  destruct (span_blank_join _ _ _ E1) as [Ha [[-> ->]|(r1 & -> & ->)]].
  - simpl. repeat split; intros; first [lia | assumption | discriminate].
  - destruct (span NginxLog.not_blank r1) as [b r'] eqn:E2.
    destruct (span_blank_join _ _ _ E2) as [Hb [[-> ->]|(r2 & -> & ->)]].
    + simpl. repeat split; intros; first [lia | assumption | discriminate].
    + simpl. repeat split; intros; first [lia | assumption | discriminate].
Qed.

End Requests.

Section Strictness.

(** A line that [parse_log_line] accepts matched the pattern; the entry
    keeps the referer of the groups and the status their digits denote. *)
Lemma parse_log_line_match (line : string) (e : NginxLog.log_entry) :
  NginxLog.parse_log_line line = Some e ->
  exists g,
    log_pattern_match (strip line) = Some g /\
    NginxLog.referer e = referer g /\
    int (status_code g) = Some (NginxLog.status_code e).
Proof.
  unfold NginxLog.parse_log_line.
  destruct (log_pattern_match (strip line)) as [g|]; [|discriminate].
  destruct g as [gip gts greq gst gsz gref gua grt].
  destruct (Datetime.strptime gts) as [t|]; [|discriminate].
  destruct (int gst) as [n|] eqn:Hn; [|discriminate]. simpl.
  destruct (if String.eqb gsz "-" then Some 0 else int gsz); [|discriminate].
  simpl.
  destruct (if String.eqb grt "-" then Some 0%Q else PyFloat.float grt);
    [|discriminate].
  simpl. intros H. inversion H; subst; clear H.
  eexists. split; [reflexivity|]. simpl. split; [reflexivity | exact Hn].
Qed.

(** X12.  [NginxLogAnalyzer] is the stricter of the two analyzers: a line
    that its [parse_log_line] accepts is never turned down by [process_line]
    of [HighPerformanceNginxAnalyzer], which returns true, counts the line
    as valid and counts its referer exactly when [is_https_domain1_request]
    holds of the entry.  The daily statistics are either left as they were
    (the normalizer gave no key) or one day gets one more request, and one
    more success exactly when [is_success_status] holds of the status of the
    entry.  The converse fails, see [parse_log_line_rejects_bad_month]. *)
Theorem parse_log_line_accepts_less (self : analyzer) (line : string)
    (e : NginxLog.log_entry) :
  NginxLog.parse_log_line line = Some e ->
  let r := process_line self line in
  r.2 = true /\
  total_lines_processed r.1 = total_lines_processed self + 1 /\
  valid_lines_processed r.1 = valid_lines_processed self + 1 /\
  https_domain1_count r.1
  = https_domain1_count self
    + (if NginxLog.is_https_domain1_request e then 1 else 0) /\
  (daily_stats r.1 = daily_stats self \/
   exists k,
     total (stats_at (daily_stats r.1) k)
     = total (stats_at (daily_stats self) k) + 1 /\
     success (stats_at (daily_stats r.1) k)
     = success (stats_at (daily_stats self) k)
       + (if NginxLog.is_success_status (NginxLog.status_code e)
          then 1 else 0) /\
     forall k', k <> k' -> daily_stats r.1 !! k' = daily_stats self !! k').
Proof.
  intros H r. subst r.
  destruct (parse_log_line_match line e H) as (g & Hm & Hr & Hs).
  destruct (process_line_match self line g Hm) as (n & Hn & _ & ->).
  rewrite Hs in Hn. inversion Hn; subst n; clear Hn.
  unfold NginxLog.is_https_domain1_request. rewrite Hr. simpl.
  split; [reflexivity|]. split; [reflexivity|]. split; [reflexivity|].
  split; [reflexivity|].
  destruct (fast_parse_timestamp (timestamp_str g)) as [k|];
    [right | left; reflexivity].
  exists k. rewrite stats_at_counted. simpl.
  split; [reflexivity|]. split.
  - f_equal.
    destruct (decide (200 <= NginxLog.status_code e < 300)) as [Hin|Hout];
      destruct (NginxLog.is_success_status (NginxLog.status_code e)) eqn:E;
      try reflexivity.
    + apply is_success_status_range in Hin. congruence.
    + apply is_success_status_range in E. contradiction.
  - intros k' Hne. apply lookup_counted_ne, Hne.
Qed.

Lemma parse_log_line_accepts_less_witness :
  NginxLog.parse_log_line no_size_line = Some no_size_entry /\
  let r := process_line reset_stats no_size_line in
  r.2 = true /\
  total_lines_processed r.1 = total_lines_processed reset_stats + 1 /\
  valid_lines_processed r.1 = valid_lines_processed reset_stats + 1 /\
  https_domain1_count r.1
  = https_domain1_count reset_stats
    + (if NginxLog.is_https_domain1_request no_size_entry then 1 else 0) /\
  (daily_stats r.1 = daily_stats reset_stats \/
   exists k,
     total (stats_at (daily_stats r.1) k)
     = total (stats_at (daily_stats reset_stats) k) + 1 /\
     success (stats_at (daily_stats r.1) k)
     = success (stats_at (daily_stats reset_stats) k)
       + (if NginxLog.is_success_status (NginxLog.status_code no_size_entry)
          then 1 else 0) /\
     forall k', k <> k' ->
       daily_stats r.1 !! k' = daily_stats reset_stats !! k').
Proof.
  assert (H : NginxLog.parse_log_line no_size_line = Some no_size_entry)
    by (vm_compute; reflexivity).
  exact (conj H (parse_log_line_accepts_less reset_stats no_size_line
                   no_size_entry H)).
Defined.

Lemma accepted_line_valid (line : string) :
  accepted_line line = true -> valid_line line = true.
Proof.
  unfold accepted_line, valid_line.
  destruct (NginxLog.parse_log_line line) as [e|] eqn:E; [|discriminate].
  destruct (parse_log_line_match line e E) as (g & -> & _).
  reflexivity.
Qed.

Lemma accepted_secure_line_secure (line : string) :
  accepted_secure_line line = true -> secure_line line = true.
Proof.
  unfold accepted_secure_line, secure_line.
  destruct (NginxLog.parse_log_line line) as [e|] eqn:E; [|discriminate].
  destruct (parse_log_line_match line e E) as (g & -> & Hr & _).
  unfold NginxLog.is_https_domain1_request. rewrite Hr. intros H; exact H.
Qed.

End Strictness.

Section NginxRuns.

Import NginxLog.

Lemma process_batch_loop_shift (lines : list string) (self : NginxLog.analyzer)
    (pc : Z) :
  process_batch_loop self pc lines
  = ((process_batch_loop self 0 lines).1,
     shift pc (process_batch_loop self 0 lines).2).
Proof.
  revert self pc. induction lines as [|l lines IH]; intros self pc.
  - simpl. rewrite Z.add_0_r. reflexivity.
  - simpl. destruct (parse_log_line l) as [e|]; [|apply IH].
    destruct (get_date_key (timestamp e)) as [k|]; [|reflexivity].
    rewrite IH. rewrite (IH _ (0 + 1)).
    destruct (process_batch_loop _ 0 lines) as [s [n|]]; simpl;
      [f_equal; f_equal; lia | reflexivity].
Qed.

Lemma process_batch_loop_app (l1 l2 : list string) (self : NginxLog.analyzer)
    (pc : Z) :
  process_batch_loop self pc (l1 ++ l2)
  = match process_batch_loop self pc l1 with
    | (s, Returned n) => process_batch_loop s n l2
    | (s, Raised) => (s, Raised)
    end.
Proof.
  revert self pc. induction l1 as [|l l1 IH]; intros self pc; [reflexivity|].
  simpl. destruct (parse_log_line l) as [e|]; [|apply IH].
  destruct (get_date_key (timestamp e)); [apply IH | reflexivity].
Qed.

Lemma process_log_file_loop_spec (chunk_size : Z) (lines batch : list string)
    (self : NginxLog.analyzer) (tl pl : Z) :
  chunk_size <> 0 ->
  process_log_file_loop chunk_size self batch tl pl lines
  = match NginxLog._process_batch self (batch ++ lines) with
    | (s, Returned n) => (s, Returned (tl + Z.of_nat (length lines), pl + n))
    | (s, Raised) => (s, Raised)
    end.
Proof.
  intros Hc. unfold NginxLog._process_batch.
  revert self batch tl pl. induction lines as [|l lines IH];
    intros self batch tl pl.
  - simpl. rewrite app_nil_r. destruct batch as [|b batch].
    + simpl. rewrite !Z.add_0_r. reflexivity.
    + unfold NginxLog._process_batch.
      destruct (process_batch_loop self 0 (b :: batch)) as [s [n|]];
        [rewrite Z.add_0_r|]; reflexivity.
  - cbn [process_log_file_loop].
    replace (batch ++ l :: lines) with ((batch ++ [l]) ++ lines)
      by (rewrite <- app_assoc; reflexivity).
    rewrite (process_batch_loop_app (batch ++ [l]) lines).
    destruct (Z.of_nat (length (batch ++ [l])) >=? chunk_size).
    + unfold NginxLog._process_batch.
      destruct (process_batch_loop self 0 (batch ++ [l])) as [s [n|]];
        [|reflexivity].
      destruct (Z.eqb_spec (chunk_size * 10) 0) as [Hz|_]; [lia|].
      rewrite IH. cbn [app].
      rewrite (process_batch_loop_shift lines s n).
      destruct (process_batch_loop s 0 lines) as [s' [m|]]; simpl;
        [|reflexivity].
      f_equal. f_equal. f_equal; cbn [length]; lia.
    + rewrite IH. rewrite (process_batch_loop_app (batch ++ [l]) lines).
      destruct (process_batch_loop self 0 (batch ++ [l])) as [s [n|]];
        [|reflexivity].
      destruct (process_batch_loop s n lines) as [s' [m|]];
        [|reflexivity].
      f_equal. f_equal. f_equal. cbn [length]. lia.
Qed.

(** X13.  A chunk size other than zero has no effect on what
    [process_log_file] leaves and prints: the state is the one
    [_process_batch] reaches on all the lines of the file in one batch, the
    run completes exactly when that batch does, and it then reports the
    number of lines of the file and the count of that batch. *)
Theorem process_log_file_chunk_size (self : NginxLog.analyzer)
    (bytes : string) (chunk_size chunk_size' : Z) :
  chunk_size <> 0 -> chunk_size' <> 0 ->
  process_log_file self bytes chunk_size
  = match NginxLog._process_batch self (IO.text_lines bytes) with
    | (s, Returned n) =>
        (s, Returned (Z.of_nat (length (IO.text_lines bytes)), n))
    | (s, Raised) => (s, Raised)
    end /\
  process_log_file self bytes chunk_size
  = process_log_file self bytes chunk_size'.
Proof.
  intros Hc Hc'. unfold process_log_file.
  rewrite !process_log_file_loop_spec by assumption. cbn [app].
  split; [|reflexivity].
  destruct (NginxLog._process_batch self (IO.text_lines bytes)) as [s [n|]];
    reflexivity.
Qed.

(** X18.  With a chunk size of zero [process_log_file] stops after the
    first line of the file: the line is handed to [_process_batch], then the
    progress test divides by zero and the handler of [process_log_file]
    returns.  The state is the one that single line leaves, whatever the
    rest of the file holds. *)
Theorem process_log_file_chunk_size_zero (self : NginxLog.analyzer)
    (bytes l : string) (ls : list string) :
  IO.text_lines bytes = l :: ls ->
  process_log_file self bytes 0
  = ((NginxLog._process_batch self [l]).1, Raised).
Proof.
  intros H. unfold process_log_file. rewrite H.
  cbn [process_log_file_loop app].
  change (Z.of_nat (length [l]) >=? 0) with true. cbn iota.
  destruct (NginxLog._process_batch self [l]) as [s [n|]]; reflexivity.
Qed.

Lemma process_batch_loop_counts (lines : list string)
    (self s : NginxLog.analyzer) (pc n : Z) :
  process_batch_loop self pc lines = (s, Returned n) ->
  n = pc + count accepted_line lines /\
  https_domain1_count s
  = https_domain1_count self + count accepted_secure_line lines.
Proof.
  revert self pc. induction lines as [|l lines IH]; intros self pc H.
  - simpl in H. inversion H; subst. unfold count. simpl. split; lia.
  - rewrite !count_cons. unfold accepted_line at 1, accepted_secure_line at 1.
    simpl in H. destruct (parse_log_line l) as [e|].
    + destruct (get_date_key (timestamp e)); [|discriminate H].
      apply IH in H as [-> ->].
      destruct (is_https_domain1_request e), (is_success_status (status_code e));
        simpl; split; lia.
    + apply IH in H as [-> ->]. split; lia.
Qed.

(** X14.  When [_process_batch] of [NginxLogAnalyzer] returns, the count it
    returns is the number of lines [parse_log_line] accepts, and the
    secure-referer counter has grown by the number of accepted lines whose
    referer has the prefix.  Neither exceeds what
    [HighPerformanceNginxAnalyzer] counts on the same lines as valid lines
    and as secure referers. *)
Theorem nginx_process_batch_counts (self s : NginxLog.analyzer)
    (lines : list string) (n : Z) :
  NginxLog._process_batch self lines = (s, Returned n) ->
  n = count accepted_line lines /\
  https_domain1_count s
  = https_domain1_count self + count accepted_secure_line lines /\
  n <= valid_lines_processed (aggregate lines) /\
  count accepted_secure_line lines
  <= HighPerformance.https_domain1_count (aggregate lines).
Proof.
  intros H. apply process_batch_loop_counts in H as [-> ->].
  destruct (_process_batch_counts reset_stats lines) as (_ & Hv & Hc).
  cbn zeta in Hv, Hc. unfold aggregate. rewrite Hv, Hc. simpl.
  pose proof (count_le accepted_line valid_line lines accepted_line_valid).
  pose proof (count_le accepted_secure_line secure_line lines
                accepted_secure_line_secure).
  repeat split; lia.
Qed.

(** X15.  An exception ends the run where it happens.  If
    [_process_batch] of [NginxLogAnalyzer] raises on some lines, then
    whatever lines follow them it raises as well and leaves the same state:
    what was counted before the exception stays counted, and nothing after
    it is looked at. *)
Theorem nginx_process_batch_raised (self s : NginxLog.analyzer)
    (l1 l2 : list string) :
  NginxLog._process_batch self l1 = (s, Raised) ->
  NginxLog._process_batch self (l1 ++ l2) = (s, Raised).
Proof.
  unfold NginxLog._process_batch. intros H.
  rewrite process_batch_loop_app, H. reflexivity.
Qed.

End NginxRuns.

Lemma process_log_file_chunk_size_witness :
  1 <> 0 /\ 10000 <> 0 /\
  (NginxLog.process_log_file (NginxLog.Analyzer 0 ∅) two_record_file 1
   = match NginxLog._process_batch (NginxLog.Analyzer 0 ∅)
             (IO.text_lines two_record_file) with
     | (s, Returned n) =>
         (s, Returned (Z.of_nat (length (IO.text_lines two_record_file)), n))
     | (s, Raised) => (s, Raised)
     end /\
   NginxLog.process_log_file (NginxLog.Analyzer 0 ∅) two_record_file 1
   = NginxLog.process_log_file (NginxLog.Analyzer 0 ∅) two_record_file 10000).
Proof.
  assert (H1 : 1 <> 0) by lia.
  assert (H2 : 10000 <> 0) by lia.
  exact (conj H1 (conj H2
           (process_log_file_chunk_size (NginxLog.Analyzer 0 ∅)
              two_record_file 1 10000 H1 H2))).
Defined.

Lemma process_log_file_chunk_size_zero_witness :
  IO.text_lines two_record_file
  = [scenario_A +:+ String IO.LF ""; scenario_B +:+ String IO.LF ""] /\
  NginxLog.process_log_file (NginxLog.Analyzer 0 ∅) two_record_file 0
  = ((NginxLog._process_batch (NginxLog.Analyzer 0 ∅)
        [scenario_A +:+ String IO.LF ""]).1, Raised).
Proof.
  assert (H : IO.text_lines two_record_file
              = [scenario_A +:+ String IO.LF "";
                 scenario_B +:+ String IO.LF ""])
    by (vm_compute; reflexivity).
  exact (conj H (process_log_file_chunk_size_zero (NginxLog.Analyzer 0 ∅)
                   two_record_file _ _ H)).
Defined.

(** With the chunk size zero the second record of the file is not counted;
    with any other it is. *)
Example process_log_file_chunk_size_zero_loses :
  NginxLog.process_log_file (NginxLog.Analyzer 0 ∅) two_record_file 0
  = (NginxLog.Analyzer 1 {["2019-02-28" := DayStats 1 1]}, Raised) /\
  NginxLog.process_log_file (NginxLog.Analyzer 0 ∅) two_record_file 10000
  = (NginxLog.Analyzer 2 {["2019-02-28" := DayStats 2 1]}, Returned (2, 2)).
Proof. vm_compute. split; reflexivity. Qed.

Lemma nginx_process_batch_counts_witness :
  NginxLog._process_batch (NginxLog.Analyzer 0 ∅)
                          [no_size_line; bad_month_line]
  = (NginxLog.Analyzer 1 {["2019-02-28" := DayStats 1 1]}, Returned 1) /\
  1 = count accepted_line [no_size_line; bad_month_line] /\
  1 <= valid_lines_processed (aggregate [no_size_line; bad_month_line]).
Proof.
  assert (H : NginxLog._process_batch (NginxLog.Analyzer 0 ∅)
                                      [no_size_line; bad_month_line]
              = (NginxLog.Analyzer 1 {["2019-02-28" := DayStats 1 1]},
                 Returned 1))
    by (vm_compute; reflexivity).
  pose proof (nginx_process_batch_counts _ _ _ _ H) as (H1 & _ & H2 & _).
  exact (conj H (conj H1 H2)).
Defined.

Lemma nginx_process_batch_raised_witness :
  NginxLog._process_batch (NginxLog.Analyzer 0 ∅) [year_zero_line]
  = (NginxLog.Analyzer 1 ∅, Raised) /\
  NginxLog._process_batch (NginxLog.Analyzer 0 ∅)
                          ([year_zero_line] ++ [scenario_A])
  = (NginxLog.Analyzer 1 ∅, Raised).
Proof.
  assert (H : NginxLog._process_batch (NginxLog.Analyzer 0 ∅) [year_zero_line]
              = (NginxLog.Analyzer 1 ∅, Raised))
    by (vm_compute; reflexivity).
  exact (conj H (nginx_process_batch_raised _ _ _ [scenario_A] H)).
Defined.

Section SimpleAnalyzer.

Lemma analyze_loop_count (lines : list string) (c c' : Z)
    (ds ds' : gmap string day_stats) :
  Simple.analyze_loop c ds lines = Returned (c', ds') ->
  c' = c + count secure_line lines.
Proof.
  revert c ds. induction lines as [|l lines IH]; intros c ds H.
  - simpl in H. inversion H. unfold count. simpl. lia.
  - rewrite count_cons. unfold secure_line at 1. simpl in H.
    destruct (log_pattern_match (strip l)) as [g|].
    + destruct (Datetime.strptime (timestamp_str g)) as [t|].
      * destruct (NginxLog.get_date_key t); [|discriminate H].
        destruct (int (status_code g)); apply IH in H;
          destruct (startswith (referer g) "https://domain1.com"); lia.
      * apply IH in H.
        destruct (startswith (referer g) "https://domain1.com"); lia.
    + apply IH in H. lia.
Qed.

(** X16.  When [analyze_nginx_logs] gets through the file, the count it
    returns is the secure-referer counter [HighPerformanceNginxAnalyzer]
    reaches on the same file, whatever the batch size: both count every line
    that matches the pattern and has the prefix, also the lines whose
    timestamp cannot be read. *)
Theorem analyze_nginx_logs_count (bytes : string) (target : option string)
    (batch_size c : Z) (ds : gmap string day_stats) :
  Simple.analyze_loop 0 ∅ (IO.text_lines bytes) = Returned (c, ds) ->
  (Simple.analyze_nginx_logs bytes target).1
  = https_domain1_count (process_file_streaming reset_stats bytes batch_size).
Proof.
  intros H. unfold Simple.analyze_nginx_logs. rewrite H. cbn [fst].
  rewrite process_file_streaming_lines.
  destruct (_process_batch_counts reset_stats (IO.text_lines bytes))
    as (_ & _ & Hc).
  cbn zeta in Hc. rewrite Hc. apply analyze_loop_count in H. simpl. lia.
Qed.

Lemma analyze_nginx_logs_count_witness :
  Simple.analyze_loop 0 ∅ (IO.text_lines (scenario_A +:+ String IO.LF ""))
  = Returned (1, {["2019-02-28" := DayStats 1 1]}) /\
  (Simple.analyze_nginx_logs (scenario_A +:+ String IO.LF "") None).1
  = https_domain1_count
      (process_file_streaming reset_stats (scenario_A +:+ String IO.LF "") 50000).
Proof.
  assert (H : Simple.analyze_loop 0 ∅
                (IO.text_lines (scenario_A +:+ String IO.LF ""))
              = Returned (1, {["2019-02-28" := DayStats 1 1]}))
    by (vm_compute; reflexivity).
  exact (conj H (analyze_nginx_logs_count _ None 50000 _ _ H)).
Defined.

Lemma analyze_loop_overflow (lines : list string) (line : string) (c : Z)
    (ds : gmap string day_stats) :
  In line lines -> overflowing_line line = true ->
  Simple.analyze_loop c ds lines = Raised.
Proof.
  intros Hin Ho. revert c ds.
  induction lines as [|l lines IH]; intros c ds; [contradiction|].
  simpl. destruct Hin as [->|Hin].
  - unfold overflowing_line in Ho.
    destruct (log_pattern_match (strip line)) as [g|]; [|discriminate Ho].
    destruct (Datetime.strptime (timestamp_str g)) as [t|]; [|discriminate Ho].
    unfold NginxLog.get_date_key.
    destruct (Datetime.utc_date t); [discriminate Ho | reflexivity].
  - destruct (log_pattern_match (strip l)) as [g|]; [|apply IH, Hin].
    destruct (Datetime.strptime (timestamp_str g)) as [t|]; [|apply IH, Hin].
    destruct (NginxLog.get_date_key t); [|reflexivity].
    destruct (int (status_code g)); apply IH, Hin.
Qed.

(** X17.  One line is enough to lose the whole result of
    [analyze_nginx_logs]: if the file holds a line whose timestamp
    [strptime] reads and whose UTC date leaves the years 1 to 9999, the
    [OverflowError] reaches the outer handler and the function returns
    [(0, 0.0)], whatever the other lines hold and wherever the line is. *)
Theorem analyze_nginx_logs_overflow (bytes line : string)
    (target : option string) :
  In line (IO.text_lines bytes) -> overflowing_line line = true ->
  Simple.analyze_nginx_logs bytes target = (0, 0%Q).
Proof.
  intros Hin Ho. unfold Simple.analyze_nginx_logs.
  rewrite (analyze_loop_overflow _ line 0 ∅ Hin Ho). reflexivity.
Qed.

Lemma analyze_nginx_logs_overflow_witness :
  In (year_zero_line +:+ String IO.LF "") (IO.text_lines year_zero_file) /\
  overflowing_line (year_zero_line +:+ String IO.LF "") = true /\
  Simple.analyze_nginx_logs year_zero_file (Some "2019-02-28") = (0, 0%Q).
Proof.
  assert (Hin : In (year_zero_line +:+ String IO.LF "")
                   (IO.text_lines year_zero_file))
    by (vm_compute; right; left; reflexivity).
  assert (Ho : overflowing_line (year_zero_line +:+ String IO.LF "") = true)
    by (vm_compute; reflexivity).
  exact (conj Hin (conj Ho
           (analyze_nginx_logs_overflow year_zero_file _
                                        (Some "2019-02-28") Hin Ho))).
Defined.

End SimpleAnalyzer.

Section NumeralLimit.

Lemma stats_at_incr_total (ds : gmap string day_stats) (k : string) :
  stats_at (incr_total ds k) k
  = DayStats (total (stats_at ds k) + 1) (success (stats_at ds k)).
Proof. unfold incr_total, stats_at. rewrite lookup_insert_eq. reflexivity. Qed.

Lemma stats_at_incr_success (ds : gmap string day_stats) (k k' : string) :
  total (stats_at (incr_success ds k) k') = total (stats_at ds k') /\
  success (stats_at ds k') <= success (stats_at (incr_success ds k) k').
Proof.
  unfold incr_success, stats_at. destruct (decide (k = k')) as [<-|Hne].
  - rewrite lookup_insert_eq. simpl. split; [reflexivity | lia].
  - rewrite lookup_insert_ne by exact Hne. split; [reflexivity | lia].
Qed.

(** X19.  The path through the handler of [process_line].  When the status
    of a matching line has more digits than [int] converts and the
    timestamp normalizes to [k], the line has already been counted as valid,
    its referer has been counted and the total of [k] has grown by one when
    the conversion raises; [process_line] returns false and the success of
    [k] stays as it was, whatever the value of the status. *)
Theorem process_line_limited_long_status (self : analyzer) (line : string)
    (g : log_groups) (k : string) :
  log_pattern_match (strip line) = Some g ->
  fast_parse_timestamp (timestamp_str g) = Some k ->
  (int_max_str_digits < String.length (status_code g))%nat ->
  let r := process_line_limited self line in
  r.2 = false /\
  valid_lines_processed r.1 = valid_lines_processed self + 1 /\
  https_domain1_count r.1
  = https_domain1_count self
    + (if startswith (referer g) "https://domain1.com" then 1 else 0) /\
  total (stats_at (daily_stats r.1) k)
  = total (stats_at (daily_stats self) k) + 1 /\
  success (stats_at (daily_stats r.1) k)
  = success (stats_at (daily_stats self) k) /\
  (forall k', k <> k' -> daily_stats r.1 !! k' = daily_stats self !! k').
Proof.
  intros Hm Hk Hl r. subst r. unfold process_line_limited.
  rewrite Hm, Hk, (fast_parse_timestamp_nonempty _ _ Hk),
    (int_limited_long _ Hl).
  destruct (startswith (referer g) "https://domain1.com"); simpl;
    rewrite stats_at_incr_total; simpl;
    (repeat split; try lia;
     intros k' Hne; unfold incr_total; apply lookup_insert_ne, Hne).
Qed.

(** X20.  The limit on numerals changes nothing that is counted per line or
    per request.  Whatever the line, [process_line] leaves the same line
    counters, the same secure-referer counter and the same total of every
    day with the limit as without it; the success of a day can only be
    smaller with the limit, and whenever [process_line] returns true under
    the limit, it has done exactly what it does without it. *)
Theorem process_line_limited_counters (self : analyzer) (line : string) :
  let r := process_line_limited self line in
  let r0 := process_line self line in
  total_lines_processed r.1 = total_lines_processed r0.1 /\
  valid_lines_processed r.1 = valid_lines_processed r0.1 /\
  https_domain1_count r.1 = https_domain1_count r0.1 /\
  (forall k, total (stats_at (daily_stats r.1) k)
             = total (stats_at (daily_stats r0.1) k)) /\
  (forall k, success (stats_at (daily_stats r.1) k)
             <= success (stats_at (daily_stats r0.1) k)) /\
  (r.2 = true -> r = r0).
Proof.
  cbn zeta.
  destruct (log_pattern_match (strip line)) as [g|] eqn:Hm.
  2: { rewrite (process_line_limited_no_match _ _ Hm).
       repeat split; intros; first [reflexivity | lia]. }
  destruct (Nat.le_gt_cases (String.length (status_code g))
                            int_max_str_digits) as [Hs|Hl].
  { rewrite (process_line_limited_short _ _ _ Hm Hs).
    repeat split; intros; first [reflexivity | lia]. }
  unfold process_line_limited, process_line. rewrite Hm.
  destruct (fast_parse_timestamp (timestamp_str g)) as [k|] eqn:Hk.
  2: { repeat split; intros; first [reflexivity | lia]. }
  rewrite (fast_parse_timestamp_nonempty _ _ Hk), (int_limited_long _ Hl).
  destruct (log_pattern_match_status _ _ Hm) as [Hd Hne].
  destruct (int_digits _ Hd Hne) as (n & -> & _).
  destruct (decide (n ∈ success_codes)); simpl;
    repeat split; intros; try reflexivity; try lia; try discriminate;
    first [apply stats_at_incr_success | symmetry; apply stats_at_incr_success].
Qed.

End NumeralLimit.

Lemma process_line_limited_long_status_witness :
  log_pattern_match (strip long_status_line)
  = Some (LogGroups "47.29.201.179" "28/Feb/2019:13:17:10 +0000"
                    "GET / HTTP/1.1" long_status "100" "https://domain1.com/"
                    "UA" "1.0") /\
  fast_parse_timestamp "28/Feb/2019:13:17:10 +0000" = Some "2019-02-28" /\
  (int_max_str_digits < String.length long_status)%nat /\
  let r := process_line_limited reset_stats long_status_line in
  r.2 = false /\
  valid_lines_processed r.1 = 0 + 1 /\
  https_domain1_count r.1
  = 0 + (if startswith "https://domain1.com/" "https://domain1.com"
         then 1 else 0) /\
  total (stats_at (daily_stats r.1) "2019-02-28")
  = total (stats_at (daily_stats reset_stats) "2019-02-28") + 1 /\
  success (stats_at (daily_stats r.1) "2019-02-28")
  = success (stats_at (daily_stats reset_stats) "2019-02-28") /\
  (forall k', "2019-02-28" <> k' ->
     daily_stats r.1 !! k' = daily_stats reset_stats !! k').
Proof.
  assert (Hm : log_pattern_match (strip long_status_line)
               = Some (LogGroups "47.29.201.179" "28/Feb/2019:13:17:10 +0000"
                                 "GET / HTTP/1.1" long_status "100"
                                 "https://domain1.com/" "UA" "1.0"))
    by (vm_compute; reflexivity).
  assert (Hk : fast_parse_timestamp "28/Feb/2019:13:17:10 +0000"
               = Some "2019-02-28") by (vm_compute; reflexivity).
  assert (Hl : (int_max_str_digits < String.length long_status)%nat)
    by (apply Nat.ltb_lt; vm_compute; reflexivity).
  exact (conj Hm (conj Hk (conj Hl
           (process_line_limited_long_status reset_stats long_status_line
              _ "2019-02-28" Hm Hk Hl)))).
Defined.
